(** * PaddleOCR server: result normalisation and the /ocr handler

    A shallow embedding of [paddleocrServer.py]: the iterable coercion
    helper, the polymorphic field extractor, the orientation filter and the
    request handler, followed by the properties of the specification that
    they satisfy (or not). *)

From Stdlib Require Import ZArith NArith String Ascii Bool Lia.
From Stdlib Require Import Floats.SpecFloat.
From stdpp Require Import base list.

Local Open Scope string_scope.
Local Open Scope list_scope.

(** ** Exceptions and outcomes

    Only the exception classes that the source's [except] clauses tell
    apart are distinguished; any other class is carried by name. *)

Inductive exn : Type :=
  | TypeError
  | ValueError
  | OverflowError
  | AttributeError
  | OtherError (cls : string).

Definition is_TypeError (e : exn) : bool :=
  match e with TypeError => true | _ => false end.

Definition is_TypeError_or_ValueError (e : exn) : bool :=
  match e with TypeError | ValueError => true | _ => false end.

(** The outcome of evaluating a Python expression: a value, or an exception
    that propagates. *)
Inductive result (A : Type) : Type :=
  | Ok (a : A)
  | Raise (e : exn).
Arguments Ok {A} a.
Arguments Raise {A} e.

Definition bind {A B : Type} (r : result A) (k : A -> result B) : result B :=
  match r with
  | Ok a => k a
  | Raise e => Raise e
  end.

(** [try: body except <classes>: handler] *)
Definition try_except {A : Type} (body : result A) (caught : exn -> bool)
    (handler : result A) : result A :=
  match body with
  | Ok a => Ok a
  | Raise e => if caught e then handler else Raise e
  end.

Declare Scope py_scope.
Delimit Scope py_scope with py.
Notation "'let!' x ':=' r 'in' k" := (bind r (fun x => k))
  (at level 10, x name, r at level 100, k at level 200) : py_scope.
Local Open Scope py_scope.

(** ** Python values

    The values that can sit in a field of a recognition result.  Builtin
    classes get a constructor each; every other object is described by what
    [list()] and [float()] do with it, the only two protocols the source
    exercises on field contents:
    - [VOpaque flt] is an object that is not iterable;
    - [VIterable items failure flt] is any other iterable (generator, numpy
      array, set, ...): iterating it yields [items] and then either stops
      ([failure = None]) or raises [failure].
    In both, [flt] is the outcome of [float()] on the object.  A dict is an
    insertion-ordered list of key/value pairs looked up first match first. *)

#[warnings="-register-all"]
Inductive value : Type :=
  | VNone
  | VBool (b : bool)
  | VInt (n : Z)
  | VFloat (f : spec_float)
  | VStr (s : string)
  | VList (items : list value)
  | VTuple (items : list value)
  | VDict (entries : list (value * value))
  | VOpaque (flt : result spec_float)
  | VIterable (items : list value) (failure : option exn) (flt : result spec_float).

Definition is_none (v : value) : bool :=
  match v with VNone => true | _ => false end.

Definition isinstance_list (v : value) : bool :=
  match v with VList _ => true | _ => false end.

Definition isinstance_tuple (v : value) : bool :=
  match v with VTuple _ => true | _ => false end.

Definition isinstance_str (v : value) : bool :=
  match v with VStr _ => true | _ => false end.

(** *** Dictionaries *)

Definition key_is (k : string) (key : value) : bool :=
  match key with
  | VStr s => String.eqb s k
  | _ => false
  end.

Fixpoint dict_lookup (entries : list (value * value)) (k : string) : option value :=
  match entries with
  | [] => None
  | (key, v) :: rest => if key_is k key then Some v else dict_lookup rest k
  end.

(** [k in d] *)
Definition dict_contains (entries : list (value * value)) (k : string) : bool :=
  match dict_lookup entries k with Some _ => true | None => false end.

(** [d.get(k)] *)
Definition dict_get (entries : list (value * value)) (k : string) : value :=
  match dict_lookup entries k with Some v => v | None => VNone end.

(** *** Characters and whitespace

    A [string] is a sequence of code points below 256, one [ascii] each. *)

Definition chars (s : string) : list ascii := list_ascii_of_string s.

Definition char_str (c : ascii) : string := String c EmptyString.

(** C's [isspace] in the "C" locale, as [Py_ISSPACE]. *)
Definition c_isspace (c : ascii) : bool :=
  let n := N_of_ascii c in
  ((9 <=? n) && (n <=? 13) || (n =? 32))%N.

(** [str.isspace] on one character. *)
Definition py_isspace (c : ascii) : bool :=
  let n := N_of_ascii c in
  (c_isspace c || (28 <=? n) && (n <=? 31) || (n =? 133) || (n =? 160))%N.

Fixpoint lstrip (space : ascii -> bool) (cs : list ascii) : list ascii :=
  match cs with
  | c :: rest => if space c then lstrip space rest else cs
  | [] => []
  end.

Definition strip_with (space : ascii -> bool) (cs : list ascii) : list ascii :=
  rev (lstrip space (rev (lstrip space cs))).

(** [s.strip()] *)
Definition py_strip (s : string) : string :=
  string_of_list_ascii (strip_with py_isspace (chars s)).

(** Truth value of a string. *)
Definition str_truthy (s : string) : bool :=
  match s with EmptyString => false | _ => true end.

(** ** Floats

    A Python float is an IEEE 754 binary64 number, here a [spec_float] with
    53 bits of precision. *)

Definition prec : Z := 53.
Definition emax : Z := 1024.

Definition float_one : spec_float := S754_finite false 4503599627370496 (-52).
Definition float_zero : spec_float := S754_zero false.

(** [float(n)] on an int: rounded to nearest, ties to even; an int beyond
    the range of a float raises OverflowError. *)
Definition float_of_int (n : Z) : result spec_float :=
  match binary_normalize prec emax n 0 false with
  | S754_infinity _ => Raise OverflowError
  | f => Ok f
  end.

(** *** [float(s)] on a string

    Underscores are accepted between digits only and removed; surrounding
    whitespace is dropped; what remains is a signed decimal literal,
    [inf], [infinity] or [nan] in any letter case.  The decimal value is
    rounded to nearest, ties to even; a literal too large gives an
    infinity, not an exception. *)

Definition is_digit (c : ascii) : bool :=
  let n := N_of_ascii c in ((48 <=? n) && (n <=? 57))%N.

Definition digit_val (c : ascii) : Z := Z.of_N (N_of_ascii c) - 48.

Definition is_underscore (c : ascii) : bool := (N_of_ascii c =? 95)%N.

Definition lower (c : ascii) : ascii :=
  let n := N_of_ascii c in
  if ((65 <=? n) && (n <=? 90))%N then ascii_of_N (n + 32) else c.

Definition float_isspace (c : ascii) : bool :=
  let n := N_of_ascii c in
  (c_isspace c || (n =? 133) || (n =? 160))%N.

Fixpoint strip_underscores (prev : option ascii) (cs : list ascii)
    : option (list ascii) :=
  match cs with
  | [] =>
      match prev with
      | Some p => if is_underscore p then None else Some []
      | None => Some []
      end
  | c :: rest =>
      if is_underscore c then
        match prev with
        | Some p => if is_digit p then strip_underscores (Some c) rest else None
        | None => None
        end
      else
        match prev with
        | Some p =>
            if is_underscore p && negb (is_digit c) then None
            else option_map (cons c) (strip_underscores (Some c) rest)
        | None => option_map (cons c) (strip_underscores (Some c) rest)
        end
  end.

Fixpoint span_digits (cs : list ascii) : list ascii * list ascii :=
  match cs with
  | c :: rest =>
      if is_digit c then
        let '(ds, r) := span_digits rest in (c :: ds, r)
      else ([], cs)
  | [] => ([], [])
  end.

Definition digits_value (ds : list ascii) : Z :=
  fold_left (fun acc c => 10 * acc + digit_val c)%Z ds 0%Z.

Definition take_sign (cs : list ascii) : bool * list ascii :=
  match cs with
  | c :: rest =>
      if (N_of_ascii c =? 45)%N then (true, rest)
      else if (N_of_ascii c =? 43)%N then (false, rest)
      else (false, cs)
  | [] => (false, [])
  end.

(** The float nearest to [(-1)^neg * m * 10^e], for [m >= 0]. *)
Definition float_of_decimal (neg : bool) (m e : Z) : spec_float :=
  if (m =? 0)%Z then S754_zero neg
  else if (0 <=? e)%Z then
    binary_normalize prec emax (cond_Zopp neg (m * 10 ^ e)) 0 neg
  else
    let '(q, e', l) := SFdiv_core_binary prec emax m 0 (10 ^ (- e)) 0 in
    binary_round_aux prec emax neg q e' l.

Definition float_of_chars (cs : list ascii) : option spec_float :=
  match strip_underscores None cs with
  | None => None
  | Some cs1 =>
      let '(neg, rest) := take_sign (strip_with float_isspace cs1) in
      let low := string_of_list_ascii (map lower rest) in
      if String.eqb low "inf" || String.eqb low "infinity" then
        Some (S754_infinity neg)
      else if String.eqb low "nan" then Some S754_nan
      else
        let '(ip, r1) := span_digits rest in
        let '(fp, r2) :=
          match r1 with
          | c :: r => if (N_of_ascii c =? 46)%N then span_digits r else ([], r1)
          | [] => ([], r1)
          end in
        let ds := ip ++ fp in
        let scale := Z.of_nat (length fp) in
        match ds, r2 with
        | [], _ => None
        | _ :: _, [] => Some (float_of_decimal neg (digits_value ds) (- scale))
        | _ :: _, c :: r3 =>
            if (N_of_ascii (lower c) =? 101)%N then
              let '(eneg, r4) := take_sign r3 in
              let '(ed, r5) := span_digits r4 in
              match ed, r5 with
              | _ :: _, [] =>
                  Some (float_of_decimal neg (digits_value ds)
                          (cond_Zopp eneg (digits_value ed) - scale))
              | _, _ => None
              end
            else None
        end
  end.

Definition float_of_string (s : string) : option spec_float :=
  float_of_chars (chars s).

(** ** Builtin conversions *)

(** [list(v)] *)
Definition py_list (v : value) : result (list value) :=
  match v with
  | VList items | VTuple items => Ok items
  | VStr s => Ok (map (fun c => VStr (char_str c)) (chars s))
  | VDict entries => Ok (map fst entries)
  | VIterable items None _ => Ok items
  | VIterable _ (Some e) _ => Raise e
  | VNone | VBool _ | VInt _ | VFloat _ | VOpaque _ => Raise TypeError
  end.

(** [float(v)] *)
Definition py_float (v : value) : result spec_float :=
  match v with
  | VBool b => Ok (if b then float_one else float_zero)
  | VInt n => float_of_int n
  | VFloat f => Ok f
  | VStr s =>
      match float_of_string s with
      | Some f => Ok f
      | None => Raise ValueError
      end
  | VOpaque flt | VIterable _ _ flt => flt
  | VNone | VList _ | VTuple _ | VDict _ => Raise TypeError
  end.

(** [isinstance(v, dict) and k in v] *)
Definition is_dict_with (v : value) (k : string) : bool :=
  match v with
  | VDict entries => dict_contains entries k
  | _ => false
  end.

(** [v.get(k)], for [v] a dict. *)
Definition py_get (v : value) (k : string) : value :=
  match v with
  | VDict entries => dict_get entries k
  | _ => VNone
  end.

(** ** Objects

    A recognition result as the extractor sees it: the value it is, and the
    attributes that [getattr] resolves on it (instance and class attributes
    alike), first match first.  An attribute is a stored value: looking it up
    returns the value or finds nothing.  Accessors that run code and raise
    (a property whose getter fails) are outside this model. *)

Record pyobject : Type := PyObject {
  self : value;
  attrs : list (string * value)
}.

Fixpoint attr_lookup (attrs : list (string * value)) (name : string) : option value :=
  match attrs with
  | [] => None
  | (n, v) :: rest => if String.eqb n name then Some v else attr_lookup rest name
  end.

(** [hasattr(o, name)] *)
Definition hasattr (o : pyobject) (name : string) : bool :=
  match attr_lookup (attrs o) name with Some _ => true | None => false end.

(** [getattr(o, name)] *)
Definition getattr (o : pyobject) (name : string) : result value :=
  match attr_lookup (attrs o) name with
  | Some v => Ok v
  | None => Raise AttributeError
  end.

(** [getattr(o, name, default)] *)
Definition getattr_default (o : pyobject) (name : string) (default : value) : value :=
  match attr_lookup (attrs o) name with
  | Some v => v
  | None => default
  end.

(** ** The normalisation core *)

Definition _coerce_iterable (v : value) : result (list value) :=
  if is_none v then Ok []
  else if isinstance_list v then py_list v
  else if isinstance_tuple v then py_list v
  else try_except (py_list v) is_TypeError (Ok []).

Definition _extract_list_field (prediction : pyobject) (field_name : string)
    : result (list value) :=
  if is_none (self prediction) then Ok []
  else if is_dict_with (self prediction) field_name then
    _coerce_iterable (py_get (self prediction) field_name)
  else if hasattr prediction field_name then
    let! v := getattr prediction field_name in _coerce_iterable v
  else
    let json_res := getattr_default prediction "json_res" VNone in
    if is_dict_with json_res field_name then
      _coerce_iterable (py_get json_res field_name)
    else
      let payload := getattr_default prediction "__dict__" VNone in
      if is_dict_with payload field_name then
        _coerce_iterable (py_get payload field_name)
      else Ok [].

(** [[text for text in raw if isinstance(text, str)]] *)
Fixpoint str_entries (raw : list value) : list string :=
  match raw with
  | [] => []
  | VStr s :: rest => s :: str_entries rest
  | _ :: rest => str_entries rest
  end.

(** The [try] block of the loop: [None] stands for Python's [None]. *)
Definition angle_value_of (angle : value) : result (option spec_float) :=
  try_except
    (if negb (is_none angle) then let! f := py_float angle in Ok (Some f)
     else Ok None)
    is_TypeError_or_ValueError
    (Ok None).

(** [angle_value == 1.0] *)
Definition equals_one (angle_value : option spec_float) : bool :=
  match angle_value with
  | Some f => SFeqb f float_one
  | None => false
  end.

(** The [for idx, text in enumerate(rec_texts)] loop, from index [idx] on,
    with [filtered] the list built so far. *)
Fixpoint filter_loop (angles : list value) (idx : nat) (rec_texts : list string)
    (filtered : list string) : result (list string) :=
  match rec_texts with
  | [] => Ok filtered
  | text :: rest =>
      let angle := default VNone (angles !! idx) in
      let! angle_value := angle_value_of angle in
      if equals_one angle_value then filter_loop angles (S idx) rest filtered
      else filter_loop angles (S idx) rest (filtered ++ [text])
  end.

Definition _extract_rec_texts (prediction : pyobject) : result (list string) :=
  let! raw := _extract_list_field prediction "rec_texts" in
  let rec_texts := str_entries raw in
  match rec_texts with
  | [] => Ok []
  | _ :: _ =>
      let! angles := _extract_list_field prediction "textline_orientation_angles" in
      match angles with
      | [] => Ok rec_texts
      | _ :: _ => filter_loop angles 0 rec_texts []
      end
  end.

(** ** The request handler

    The request body as [request.get_json(silent=True)] returns it.  An
    element of the [urls] array is observed through [str()] only, so an
    element that is not a string carries the text [str()] prints for it. *)

Inductive jitem : Type :=
  | JString (s : string)
  | JOther (printed : string).

Definition py_str (url : jitem) : string :=
  match url with
  | JString s => s
  | JOther printed => printed
  end.

Inductive jvalue : Type :=
  | JArray (items : list jitem)
  | JNotArray.

Inductive request_json : Type :=
  | NoJson                                      (* None: no body, or not JSON *)
  | JsonObject (fields : list (string * jvalue))
  | JsonOther (truthy : bool).                  (* an array, string, number or boolean *)

Definition json_truthy (j : request_json) : bool :=
  match j with
  | NoJson => false
  | JsonObject [] => false
  | JsonObject (_ :: _) => true
  | JsonOther truthy => truthy
  end.

Fixpoint field_lookup (fields : list (string * jvalue)) (k : string) : option jvalue :=
  match fields with
  | [] => None
  | (n, v) :: rest => if String.eqb n k then Some v else field_lookup rest k
  end.

(** The recognition engine: one batch call, which returns the predictions
    or raises.  [Failed exc] is an exception of class Exception, of which the
    handler observes the text only; [Interrupted e] is an exception outside
    that class (KeyboardInterrupt, SystemExit, ...), which [except Exception]
    lets through. *)
Inductive engine_outcome : Type :=
  | Predictions (predictions : list pyobject)
  | Failed (exc : string)
  | Interrupted (e : exn).

Record record : Type := Record_ {
  input_path : string;
  rec_texts : list string
}.

Inductive body : Type :=
  | Detail (detail : string)
  | Records (response : list record).

Record response : Type := Response {
  resp_body : body;
  resp_status : Z
}.

(** What a request does: the arguments of each engine call it makes, and
    the response (or the exception that escapes the handler). *)
Record run : Type := Run {
  engine_calls : list (list string);
  outcome : result response
}.

(** [[str(url).strip() for url in urls if str(url).strip()]] *)
Fixpoint clean_urls (urls : list jitem) : list string :=
  match urls with
  | [] => []
  | url :: rest =>
      if str_truthy (py_strip (py_str url))
      then py_strip (py_str url) :: clean_urls rest
      else clean_urls rest
  end.

(** The [for url, prediction in zip(urls, predictions)] loop. *)
Fixpoint build_response (pairs : list (string * pyobject)) (response : list record)
    : result (list record) :=
  match pairs with
  | [] => Ok response
  | (url, prediction) :: rest =>
      let! rec_texts := _extract_rec_texts prediction in
      build_response rest
        (response ++ [{| input_path := url; rec_texts := rec_texts |}])
  end.

Definition run_ocr (predict : list string -> engine_outcome) (json : request_json)
    : run :=
  let payload := if json_truthy json then json else JsonObject [] in
  match payload with
  | JsonObject fields =>
      let urls := default (JArray []) (field_lookup fields "urls") in
      match urls with
      | JNotArray =>
          Run [] (Ok (Response
            (Detail "The 'urls' field must be a JSON array of strings.") 400))
      | JArray items =>
          let urls := clean_urls items in
          match urls with
          | [] => Run [] (Ok (Response (Detail "The urls list must not be empty.") 400))
          | _ :: _ =>
              match predict urls with
              | Failed exc =>
                  Run [urls] (Ok (Response (Detail ("OCR failed: " ++ exc)) 500))
              | Interrupted e => Run [urls] (Raise e)
              | Predictions predictions =>
                  if negb (length predictions =? length urls)%nat then
                    Run [urls] (Ok (Response
                      (Detail "Mismatch between predictions and requested URLs.") 500))
                  else
                    Run [urls]
                      (let! response := build_response (combine urls predictions) [] in
                       Ok (Response (Records response) 200))
              end
          end
      end
  | NoJson | JsonOther _ => Run [] (Raise AttributeError)
  end.

(** ** The specification's reading of the extractor

    Section 4.1 of the specification lists four probes, tried in a fixed
    order; the first that finds the field decides, and its value is coerced. *)

(** The value a dict holds for a key; nothing for any other value. *)
Definition dict_probe (v : value) (f : string) : option value :=
  match v with
  | VDict entries => dict_lookup entries f
  | _ => None
  end.

Definition mapping_probe (p : pyobject) (f : string) : option value :=
  dict_probe (self p) f.

Definition attribute_probe (p : pyobject) (f : string) : option value :=
  attr_lookup (attrs p) f.

Definition nested_probe (p : pyobject) (f : string) : option value :=
  match attr_lookup (attrs p) "json_res" with
  | Some json_res => dict_probe json_res f
  | None => None
  end.

Definition store_probe (p : pyobject) (f : string) : option value :=
  match attr_lookup (attrs p) "__dict__" with
  | Some payload => dict_probe payload f
  | None => None
  end.

Fixpoint first_match (probes : list (option value)) : option value :=
  match probes with
  | [] => None
  | Some v :: _ => Some v
  | None :: rest => first_match rest
  end.

Definition probes (p : pyobject) (f : string) : list (option value) :=
  [mapping_probe p f; attribute_probe p f; nested_probe p f; store_probe p f].

Definition extract_spec (p : pyobject) (f : string) : result (list value) :=
  if is_none (self p) then Ok []
  else
    match first_match (probes p f) with
    | Some v => _coerce_iterable v
    | None => Ok []
    end.

(** The four result shapes: the field is found by one probe and by none of
    the probes that come before it. *)

Definition mapping_shape (p : pyobject) (f : string) (v : value) : Prop :=
  mapping_probe p f = Some v.

Definition attribute_shape (p : pyobject) (f : string) (v : value) : Prop :=
  self p <> VNone /\ mapping_probe p f = None /\ attribute_probe p f = Some v.

Definition nested_shape (p : pyobject) (f : string) (v : value) : Prop :=
  self p <> VNone /\ mapping_probe p f = None /\ attribute_probe p f = None /\
  nested_probe p f = Some v.

Definition store_shape (p : pyobject) (f : string) (v : value) : Prop :=
  self p <> VNone /\ mapping_probe p f = None /\ attribute_probe p f = None /\
  nested_probe p f = None /\ store_probe p f = Some v.

(** ** The specification's reading of the orientation filter *)

(** The text at index [i] is kept: there is no angle at [i], or the angle is
    [None], or it fails to parse, or it parses to something other than 1.0. *)
Definition keeps (angles : list value) (i : nat) : bool :=
  match angles !! i with
  | None => true
  | Some a =>
      if is_none a then true
      else
        match py_float a with
        | Raise _ => true
        | Ok x => negb (SFeqb x float_one)
        end
  end.

(** The texts whose index is kept, in their original order. *)
Definition accepted (angles : list value) (texts : list string) : list string :=
  map snd
    (List.filter (fun it => keeps angles (fst it))
       (combine (seq 0 (length texts)) texts)).

(** [float(a)] returns, or raises one of the two exception classes that the
    loop handles. *)
Definition conversion_handled (a : value) : bool :=
  match py_float a with
  | Ok _ => true
  | Raise e => is_TypeError_or_ValueError e
  end.

(** The accepted inputs of a request: every element of [urls] as text,
    trimmed, the blank ones left out. *)
Definition trimmed (url : jitem) : string := py_strip (py_str url).

Definition accepted_inputs (items : list jitem) : list string :=
  List.filter str_truthy (map trimmed items).

(** An element that is a string and is not blank once trimmed. *)
Definition non_blank_string (url : jitem) : bool :=
  match url with
  | JString s => str_truthy (py_strip s)
  | JOther _ => false
  end.

(** The [urls] value is a non-empty array of non-blank strings. *)
Definition valid_urls (urls : jvalue) : bool :=
  match urls with
  | JArray (u :: items) => forallb non_blank_string (u :: items)
  | _ => false
  end.

(** ** Concrete inputs used in the examples below *)

Definition plain_dict (kvs : list (string * value)) : pyobject :=
  PyObject (VDict (map (fun kv => (VStr (fst kv), snd kv)) kvs)) [].

(** The same field value held in each of the four shapes. *)
Definition shape_value : value := VTuple [VStr "a"; VStr "b"].

Definition mapping_example : pyobject := plain_dict [("rec_texts", shape_value)].

Definition attribute_example : pyobject :=
  PyObject (VOpaque (Raise TypeError)) [("rec_texts", shape_value)].

Definition nested_example : pyobject :=
  PyObject (VOpaque (Raise TypeError))
    [("json_res", VDict [(VStr "rec_texts", shape_value)])].

Definition store_example : pyobject :=
  PyObject (VOpaque (Raise TypeError))
    [("__dict__", VDict [(VStr "rec_texts", shape_value)])].

(** [{"rec_texts": ["a", 7, "b"], "textline_orientation_angles": [0, "?"]}] *)
Definition mixed_result : pyobject :=
  plain_dict [("rec_texts", VList [VStr "a"; VInt 7; VStr "b"]);
              ("textline_orientation_angles", VList [VInt 0; VStr "?"])].

(** [{"rec_texts": ["a", "b"], "textline_orientation_angles": [0, "?"]}] *)
Definition strings_only_result : pyobject :=
  plain_dict [("rec_texts", VList [VStr "a"; VStr "b"]);
              ("textline_orientation_angles", VList [VInt 0; VStr "?"])].

(** [{"rec_texts": ["a", 7, "b"], "textline_orientation_angles": [0, 1, 0]}] *)
Definition realigned_result : pyobject :=
  plain_dict [("rec_texts", VList [VStr "a"; VInt 7; VStr "b"]);
              ("textline_orientation_angles", VList [VInt 0; VInt 1; VInt 0])].

(** [{"rec_texts": [7, None], "textline_orientation_angles": [1.0]}] *)
Definition no_text_result : pyobject :=
  plain_dict [("rec_texts", VList [VInt 7; VNone]);
              ("textline_orientation_angles", VList [VFloat float_one])].

(** [{"rec_texts": ["a", "b"], "textline_orientation_angles": []}] *)
Definition no_angle_result : pyobject :=
  plain_dict [("rec_texts", VList [VStr "a"; VStr "b"]);
              ("textline_orientation_angles", VList [])].

(** [{"rec_texts": ["a", "b", "c", "d"],
      "textline_orientation_angles": [0.0, "1.0", None]}] *)
Definition short_angle_result : pyobject :=
  plain_dict [("rec_texts", VList [VStr "a"; VStr "b"; VStr "c"; VStr "d"]);
              ("textline_orientation_angles",
               VList [VFloat float_zero; VStr "1.0"; VNone])].

(** A generator that yields ["a"] and then raises ValueError. *)
Definition failing_generator : value :=
  VIterable [VStr "a"] (Some ValueError) (Raise TypeError).

(** [{"rec_texts": ["a"], "textline_orientation_angles": [10 ** 400]}] *)
Definition huge_angle_result : pyobject :=
  plain_dict [("rec_texts", VList [VStr "a"]);
              ("textline_orientation_angles", VList [VInt (10 ^ 400)])].

(** A request for three inputs, two of them padded with blanks. *)
Definition three_items : list jitem :=
  [JString " a.png "; JString "b.png"; JString "c.png "].

Definition three_urls : request_json := JsonObject [("urls", JArray three_items)].

(** An engine that finds, in every input, one line: the name of the input. *)
Definition echo_engine (urls : list string) : engine_outcome :=
  Predictions (map (fun url => plain_dict [("rec_texts", VList [VStr url])]) urls).

(** An engine that returns two results whatever it is given. *)
Definition two_results_engine (urls : list string) : engine_outcome :=
  Predictions [plain_dict []; plain_dict []].

(** [urls] with a blank element and an element that is not a string. *)
Definition untidy_items : list jitem := [JString " a "; JString "  "; JOther "5"].

(** The answer to a request that names no input. *)
Definition empty_urls_answer : run :=
  Run [] (Ok (Response (Detail "The urls list must not be empty.") 400)).

(** The same three inputs, padded differently and mixed with blanks. *)
Definition padded_items : list jitem :=
  [JString ""; JString "a.png"; JString "   "; JString "  b.png  ";
   JString "c.png"; JString " "].

(** [{"rec_texts": ["a", "b", "c"],
      "textline_orientation_angles": [1.0, 10 ** 400, "x"]}] *)
Definition late_huge_angle_result : pyobject :=
  plain_dict [("rec_texts", VList [VStr "a"; VStr "b"; VStr "c"]);
              ("textline_orientation_angles",
               VList [VFloat float_one; VInt (10 ^ 400); VStr "x"])].

(** [{"rec_texts": ["a"], "textline_orientation_angles": [0]}] *)
Definition one_text_result : pyobject :=
  plain_dict [("rec_texts", VList [VStr "a"]);
              ("textline_orientation_angles", VList [VInt 0])].

(** [{"rec_texts": ("a", None), "textline_orientation_angles": (0, 10 ** 400)}] *)
Definition one_text_extra_angle_result : pyobject :=
  plain_dict [("rec_texts", VTuple [VStr "a"; VNone]);
              ("textline_orientation_angles", VTuple [VInt 0; VInt (10 ^ 400)])].

(** An engine whose second result carries an angle too large for a float. *)
Definition one_bad_engine (urls : list string) : engine_outcome :=
  Predictions [mapping_example; huge_angle_result; mapping_example].

(** An engine that is interrupted from the keyboard during the call. *)
Definition interrupted_engine (urls : list string) : engine_outcome :=
  Interrupted (OtherError "KeyboardInterrupt").

(** An engine that recognises nothing in any input. *)
Definition blank_engine (urls : list string) : engine_outcome :=
  Predictions (map (fun _ => PyObject (VDict []) []) urls).

(** * Properties *)

(** ** Outcomes *)

Lemma bind_Ok {A B : Type} (a : A) (k : A -> result B) : bind (Ok a) k = k a.
Proof. reflexivity. Qed.

Lemma bind_Ok_inv {A B : Type} (r : result A) (k : A -> result B) (b : B) :
  bind r k = Ok b -> exists a, r = Ok a /\ k a = Ok b.
Proof. destruct r as [a|e]; simpl; [eauto | discriminate]. Qed.

Lemma try_except_Ok {A : Type} (a : A) caught (handler : result A) :
  try_except (Ok a) caught handler = Ok a.
Proof. reflexivity. Qed.

(** ** The coercion helper *)

Lemma coerce_list (items : list value) : _coerce_iterable (VList items) = Ok items.
Proof. reflexivity. Qed.

Lemma coerce_tuple (items : list value) : _coerce_iterable (VTuple items) = Ok items.
Proof. reflexivity. Qed.

(** The helper raises only what the iteration of its argument raises, and
    never a TypeError. *)
Lemma coerce_raise_inv (v : value) (e : exn) :
  _coerce_iterable v = Raise e ->
  is_TypeError e = false /\ exists items flt, v = VIterable items (Some e) flt.
Proof.
  destruct v as [| | | | | | | | |items [e'|] flt]; try discriminate.
  unfold _coerce_iterable; simpl.
  destruct (is_TypeError e') eqn:He'; [discriminate|].
  intros [= ->]. eauto.
Qed.

(** C3, as the specification states it, fails: a generator whose iteration
    raises ValueError makes the helper raise ValueError. *)
Lemma coerce_iterable_propagates_ValueError :
  _coerce_iterable failing_generator = Raise ValueError /\
  ~ (forall v, exists items, _coerce_iterable v = Ok items).
Proof.
  split; [reflexivity|].
  intros H. destruct (H failing_generator) as [items Hitems]. discriminate.
Qed.

(** C3, amended: the helper maps None to the empty list, a list or a tuple
    to its items in order, any other iterable whose iteration completes to
    the items it yields, and a value that is not iterable, or whose
    iteration raises TypeError, to the empty list; an exception of any
    other class raised by the iteration propagates, and nothing else is ever
    raised. *)
Theorem coerce_iterable_cases (v : value) :
  _coerce_iterable v =
    match v with
    | VNone => Ok []
    | VList items | VTuple items => Ok items
    | VStr s => Ok (map (fun c => VStr (char_str c)) (chars s))
    | VDict entries => Ok (map fst entries)
    | VIterable items None _ => Ok items
    | VIterable _ (Some e) _ => if is_TypeError e then Ok [] else Raise e
    | VBool _ | VInt _ | VFloat _ | VOpaque _ => Ok []
    end.
Proof.
  destruct v as [| | | | | | | | |items [e|] flt]; reflexivity.
Qed.

(** C9: the helper returns a list unchanged, so applying it to its own
    result changes nothing. *)
Theorem coerce_iterable_idempotent :
  (forall items, _coerce_iterable (VList items) = Ok items) /\
  (forall v,
     (let! items := _coerce_iterable v in _coerce_iterable (VList items))
     = _coerce_iterable v).
Proof.
  split; [reflexivity|].
  intros v. destruct (_coerce_iterable v) as [items|e]; reflexivity.
Qed.

Lemma str_entries_strs (ss : list string) : str_entries (map VStr ss) = ss.
Proof. induction ss as [|s ss IH]; simpl; [reflexivity | now rewrite IH]. Qed.

Lemma str_entries_filter (raw : list value) :
  map VStr (str_entries raw) = List.filter isinstance_str raw.
Proof.
  induction raw as [|v raw IH]; simpl; [reflexivity|].
  destruct v; simpl; try assumption. now rewrite IH.
Qed.

Lemma str_entries_In (raw : list value) (s : string) :
  In s (str_entries raw) <-> In (VStr s) raw.
Proof.
  induction raw as [|v raw IH]; simpl; [tauto|].
  destruct v; simpl; rewrite IH; try (intuition congruence).
Qed.

(** ** The field extractor *)

Lemma is_dict_with_probe (v : value) (f : string) :
  is_dict_with v f = match dict_probe v f with Some _ => true | None => false end.
Proof. destruct v; reflexivity. Qed.

Lemma py_get_probe (v : value) (f : string) (x : value) :
  dict_probe v f = Some x -> py_get v f = x.
Proof.
  destruct v; simpl; try discriminate.
  unfold dict_get. now intros ->.
Qed.

Lemma nested_probe_getattr (p : pyobject) (f : string) :
  nested_probe p f = dict_probe (getattr_default p "json_res" VNone) f.
Proof.
  unfold nested_probe, getattr_default.
  destruct (attr_lookup (attrs p) "json_res"); reflexivity.
Qed.

Lemma store_probe_getattr (p : pyobject) (f : string) :
  store_probe p f = dict_probe (getattr_default p "__dict__" VNone) f.
Proof.
  unfold store_probe, getattr_default.
  destruct (attr_lookup (attrs p) "__dict__"); reflexivity.
Qed.

(** One step of the chain: a probe on a dict-or-not value. *)
Lemma dict_step (v : value) (f : string) (next : result (list value)) :
  (if is_dict_with v f then _coerce_iterable (py_get v f) else next)
  = match dict_probe v f with
    | Some x => _coerce_iterable x
    | None => next
    end.
Proof.
  rewrite is_dict_with_probe.
  destruct (dict_probe v f) as [x|] eqn:Hx; [|reflexivity].
  now rewrite (py_get_probe _ _ _ Hx).
Qed.

Lemma extract_list_field_spec (p : pyobject) (f : string) :
  _extract_list_field p f = extract_spec p f.
Proof.
  unfold _extract_list_field, extract_spec, probes.
  destruct (is_none (self p)); [reflexivity|].
  rewrite !dict_step. simpl.
  rewrite nested_probe_getattr, store_probe_getattr.
  unfold mapping_probe, attribute_probe, hasattr, getattr.
  destruct (dict_probe (self p) f); [reflexivity|].
  destruct (attr_lookup (attrs p) f); [reflexivity|].
  destruct (dict_probe (getattr_default p "json_res" VNone) f); [reflexivity|].
  destruct (dict_probe (getattr_default p "__dict__" VNone) f); reflexivity.
Qed.

Lemma is_none_false (v : value) : v <> VNone -> is_none v = false.
Proof. destruct v; [congruence | reflexivity ..]. Qed.

Lemma mapping_probe_not_none (p : pyobject) (f : string) (v : value) :
  mapping_probe p f = Some v -> is_none (self p) = false.
Proof. unfold mapping_probe. destruct (self p); simpl; [discriminate | reflexivity ..]. Qed.

(** C2: the extractor tries the four probes in the order mapping, attribute,
    nested mapping under [json_res], [__dict__] store; the first that finds
    the field decides alone and its value is coerced; a None result and a
    field that no probe finds both give the empty list. *)
Theorem extract_list_field_precedence (p : pyobject) (f : string) :
  _extract_list_field p f = extract_spec p f /\
  (self p = VNone -> _extract_list_field p f = Ok []) /\
  (first_match (probes p f) = None -> _extract_list_field p f = Ok []).
Proof.
  rewrite extract_list_field_spec. unfold extract_spec.
  split; [reflexivity|]. split.
  - intros ->. reflexivity.
  - intros ->. destruct (is_none (self p)); reflexivity.
Qed.

Lemma extract_list_field_precedence_witness :
  _extract_list_field (PyObject VNone []) "rec_texts" = Ok [] /\
  _extract_list_field (plain_dict [("rec_texts", VList [VStr "a"])]) "absent_field"
  = Ok [].
Proof.
  split.
  - apply (proj1 (proj2 (extract_list_field_precedence
                           (PyObject VNone []) "rec_texts"))).
    reflexivity.
  - apply (proj2 (proj2 (extract_list_field_precedence
                           (plain_dict [("rec_texts", VList [VStr "a"])])
                           "absent_field"))).
    reflexivity.
Defined.

(** C6: whichever of the four shapes holds the field, the extractor returns
    the coercion of the value held, hence the same sequence for the same
    value. *)
Theorem extract_list_field_shape_independent
    (f : string) (v : value) (p1 p2 p3 p4 : pyobject) :
  mapping_shape p1 f v -> attribute_shape p2 f v ->
  nested_shape p3 f v -> store_shape p4 f v ->
  _extract_list_field p1 f = _coerce_iterable v /\
  _extract_list_field p2 f = _extract_list_field p1 f /\
  _extract_list_field p3 f = _extract_list_field p1 f /\
  _extract_list_field p4 f = _extract_list_field p1 f.
Proof.
  intros H1 (N2 & M2 & A2) (N3 & M3 & A3 & J3) (N4 & M4 & A4 & J4 & S4).
  rewrite !extract_list_field_spec. unfold extract_spec, probes.
  rewrite (mapping_probe_not_none _ _ _ H1).
  rewrite (is_none_false _ N2), (is_none_false _ N3), (is_none_false _ N4).
  simpl. unfold mapping_shape in H1.
  rewrite H1, M2, A2, M3, A3, J3, M4, A4, J4, S4. auto.
Qed.

Lemma extract_list_field_shape_independent_witness :
  _extract_list_field mapping_example "rec_texts" = _coerce_iterable shape_value /\
  _extract_list_field attribute_example "rec_texts"
  = _extract_list_field mapping_example "rec_texts" /\
  _extract_list_field nested_example "rec_texts"
  = _extract_list_field mapping_example "rec_texts" /\
  _extract_list_field store_example "rec_texts"
  = _extract_list_field mapping_example "rec_texts".
Proof.
  apply (extract_list_field_shape_independent "rec_texts" shape_value
           mapping_example attribute_example nested_example store_example).
  - reflexivity.
  - repeat split; [discriminate | reflexivity ..].
  - repeat split; [discriminate | reflexivity ..].
  - repeat split; [discriminate | reflexivity ..].
Defined.

Lemma length_chars (s : string) : length (chars s) = String.length s.
Proof. induction s as [|c s IH]; [reflexivity | exact (f_equal S IH)]. Qed.

(** C10: a field whose value is a string is coerced to the list of its
    characters, one string each, not to a one-element list; all of them
    pass the string filter and come out as separate texts. *)
Theorem string_field_splits_into_characters (s : string) :
  _coerce_iterable (VStr s) = Ok (map VStr (map char_str (chars s))) /\
  (forall f attrs,
     _extract_list_field (PyObject (VDict [(VStr f, VStr s)]) attrs) f
     = Ok (map VStr (map char_str (chars s)))) /\
  str_entries (map VStr (map char_str (chars s))) = map char_str (chars s) /\
  _extract_rec_texts (plain_dict [("rec_texts", VStr s)])
  = Ok (map char_str (chars s)) /\
  length (map char_str (chars s)) = String.length s.
Proof.
  assert (Hc : _coerce_iterable (VStr s) = Ok (map VStr (map char_str (chars s)))).
  { unfold _coerce_iterable; simpl. now rewrite map_map. }
  assert (Hx : forall f attrs,
             _extract_list_field (PyObject (VDict [(VStr f, VStr s)]) attrs) f
             = Ok (map VStr (map char_str (chars s)))).
  { intros f attrs. unfold _extract_list_field; simpl.
    unfold dict_contains, dict_get; simpl. rewrite String.eqb_refl. exact Hc. }
  split; [exact Hc|]. split; [exact Hx|]. split; [|split].
  - apply str_entries_strs.
  - unfold _extract_rec_texts, plain_dict; simpl map at 1.
    rewrite (Hx "rec_texts" []), bind_Ok, str_entries_strs.
    destruct (map char_str (chars s)); reflexivity.
  - rewrite length_map. apply length_chars.
Qed.

Example abc_field_gives_three_texts :
  _coerce_iterable (VStr "abc") = Ok [VStr "a"; VStr "b"; VStr "c"] /\
  _extract_rec_texts (plain_dict [("rec_texts", VStr "abc")]) = Ok ["a"; "b"; "c"].
Proof. split; reflexivity. Qed.

(** ** The orientation filter *)

(** C7: when no string is left among the extracted [rec_texts], the result
    is the empty list whatever the angle data; when strings are left and the
    extracted angle list is empty, they are returned unchanged. *)
Theorem extract_rec_texts_without_filtering (p : pyobject) (raw : list value) :
  _extract_list_field p "rec_texts" = Ok raw ->
  (str_entries raw = [] -> _extract_rec_texts p = Ok []) /\
  (str_entries raw <> [] ->
   _extract_list_field p "textline_orientation_angles" = Ok [] ->
   _extract_rec_texts p = Ok (str_entries raw)).
Proof.
  intros Hraw. unfold _extract_rec_texts. rewrite Hraw, bind_Ok. split.
  - intros ->. reflexivity.
  - intros Hne Hangles. destruct (str_entries raw) as [|t ts]; [congruence|].
    rewrite Hangles. reflexivity.
Qed.

Lemma extract_rec_texts_without_filtering_witness :
  _extract_rec_texts no_text_result = Ok [] /\
  _extract_rec_texts no_angle_result = Ok ["a"; "b"].
Proof.
  split.
  - apply (proj1 (extract_rec_texts_without_filtering
                    no_text_result [VInt 7; VNone] eq_refl)).
    reflexivity.
  - apply (proj2 (extract_rec_texts_without_filtering
                    no_angle_result [VStr "a"; VStr "b"] eq_refl)).
    + discriminate.
    + reflexivity.
Defined.

(** One turn of the loop, when the conversion of the angle at [idx] is
    handled: the comparison with 1.0 is the negation of [keeps]. *)
Lemma angle_value_keeps (angles : list value) (idx : nat) :
  (forall a, angles !! idx = Some a -> conversion_handled a = true) ->
  exists angle_value,
    angle_value_of (default VNone (angles !! idx)) = Ok angle_value /\
    equals_one angle_value = negb (keeps angles idx).
Proof.
  intros Hhandled. unfold keeps.
  destruct (angles !! idx) as [a|] eqn:Ha; simpl.
  - specialize (Hhandled a eq_refl). unfold conversion_handled in Hhandled.
    unfold angle_value_of.
    destruct (is_none a) eqn:Hnone; simpl; [exists None; auto|].
    destruct (py_float a) as [x|e]; simpl.
    + exists (Some x). split; [reflexivity|]. simpl. now rewrite negb_involutive.
    + rewrite Hhandled. exists None. auto.
  - exists None. auto.
Qed.

Lemma filter_loop_accepted (angles : list value) (texts : list string) :
  forall (idx : nat) (filtered : list string),
    (forall i a, idx <= i < idx + length texts ->
                 angles !! i = Some a -> conversion_handled a = true) ->
    filter_loop angles idx texts filtered
    = Ok (filtered ++
          map snd (List.filter (fun it => keeps angles (fst it))
                     (combine (seq idx (length texts)) texts))).
Proof.
  induction texts as [|text rest IH]; intros idx filtered Hhandled.
  - simpl. now rewrite app_nil_r.
  - cbn [filter_loop length seq combine List.filter].
    destruct (angle_value_keeps angles idx) as (av & -> & Hav).
    { intros a Ha. apply (Hhandled idx); [simpl; lia | exact Ha]. }
    rewrite bind_Ok, Hav. cbn [fst].
    assert (Hrest : forall i a, S idx <= i < S idx + length rest ->
                      angles !! i = Some a -> conversion_handled a = true).
    { intros i a Hi. apply Hhandled. simpl. lia. }
    destruct (keeps angles idx); cbn [negb map snd].
    + rewrite (IH (S idx) _ Hrest), <- app_assoc. reflexivity.
    + apply (IH (S idx) _ Hrest).
Qed.

Lemma kept_indices_sublist {A : Type} (P : nat -> bool) (xs : list A) :
  forall idx,
    sublist (map snd (List.filter (fun it => P (fst it))
                        (combine (seq idx (length xs)) xs))) xs.
Proof.
  induction xs as [|x xs IH]; intros idx; simpl; [constructor|].
  destruct (P idx); simpl; constructor; apply IH.
Qed.

Lemma keeps_take (angles : list value) (n i : nat) :
  i < n -> keeps (take n angles) i = keeps angles i.
Proof. intros Hi. unfold keeps. now rewrite lookup_take_lt. Qed.

Lemma accepted_take (angles : list value) (texts : list string) :
  accepted (take (length texts) angles) texts = accepted angles texts.
Proof.
  unfold accepted. f_equal. apply List.filter_ext_in.
  intros [i t] Hin. apply in_combine_l, in_seq in Hin.
  apply keeps_take. simpl. lia.
Qed.

Lemma keeps_false (angles : list value) (i : nat) :
  keeps angles i = false <->
  exists a x, angles !! i = Some a /\ py_float a = Ok x /\
              SFeqb x float_one = true.
Proof.
  unfold keeps. split.
  - destruct (angles !! i) as [a|]; [|discriminate].
    destruct (is_none a); [discriminate|].
    destruct (py_float a) as [x|e] eqn:Hfloat; [|discriminate].
    intros Hx. exists a, x. apply negb_false_iff in Hx. auto.
  - intros (a & x & -> & Hx & Hone).
    assert (Hnone : is_none a = false)
      by (destruct a; [discriminate Hx | reflexivity ..]).
    now rewrite Hnone, Hx, Hone.
Qed.

(** C1, as the specification states it, fails: an int angle too large for a
    float fails numeric parse with OverflowError, which the loop does not
    handle; the text should be kept and the call raises instead. *)
Lemma extract_rec_texts_overflow_counterexample :
  _extract_list_field huge_angle_result "rec_texts" = Ok [VStr "a"] /\
  _extract_list_field huge_angle_result "textline_orientation_angles"
  = Ok [VInt (10 ^ 400)] /\
  py_float (VInt (10 ^ 400)) = Raise OverflowError /\
  accepted [VInt (10 ^ 400)] ["a"] = ["a"] /\
  _extract_rec_texts huge_angle_result = Raise OverflowError.
Proof. repeat split; vm_compute; reflexivity. Qed.

(** C1, amended: for every recognition result whose extracted string texts
    and extracted angle list are non-empty, and in which [float()] of every
    angle at an index below the number of texts returns or raises TypeError
    or ValueError, the text at index [i] is kept exactly when [i] is beyond
    the end of the angle list, or the angle is None or fails numeric parse,
    or its parsed value differs from 1.0; it is excluded exactly when its
    angle parses to exactly 1.0; the survivors come in their original
    order, and angles past the end of the text list are ignored. *)
Theorem extract_rec_texts_orientation_filter
    (p : pyobject) (raw angles : list value) :
  _extract_list_field p "rec_texts" = Ok raw ->
  str_entries raw <> [] ->
  _extract_list_field p "textline_orientation_angles" = Ok angles ->
  angles <> [] ->
  (forall i a, i < length (str_entries raw) -> angles !! i = Some a ->
               conversion_handled a = true) ->
  _extract_rec_texts p = Ok (accepted angles (str_entries raw)) /\
  sublist (accepted angles (str_entries raw)) (str_entries raw) /\
  accepted (take (length (str_entries raw)) angles) (str_entries raw)
  = accepted angles (str_entries raw) /\
  (forall i, keeps angles i = false <->
             exists a x, angles !! i = Some a /\ py_float a = Ok x /\
                         SFeqb x float_one = true).
Proof.
  intros Hraw Htexts Hangles Hne Hhandled.
  split; [|split; [apply kept_indices_sublist|split; [apply accepted_take|]]].
  - unfold _extract_rec_texts. rewrite Hraw, bind_Ok.
    destruct (str_entries raw) as [|t ts] eqn:Hts; [congruence|].
    rewrite Hangles, bind_Ok.
    destruct angles as [|a0 rest]; [congruence|].
    rewrite filter_loop_accepted; [reflexivity|].
    intros i a [_ Hi]. now apply Hhandled.
  - intros i. apply keeps_false.
Qed.

Lemma extract_rec_texts_orientation_filter_witness :
  _extract_rec_texts short_angle_result = Ok ["a"; "c"; "d"].
Proof.
  apply (proj1 (extract_rec_texts_orientation_filter short_angle_result
                  [VStr "a"; VStr "b"; VStr "c"; VStr "d"]
                  [VFloat float_zero; VStr "1.0"; VNone]
                  eq_refl ltac:(discriminate) eq_refl ltac:(discriminate)
                  ltac:(intros [|[|[|i]]] a _ Ha; simpl in Ha;
                        [injection Ha as <-; reflexivity ..| discriminate Ha]))).
Defined.

(** The examples of section 8 of the specification. *)
Example filter_drops_index_1 :
  _extract_rec_texts
    (plain_dict [("rec_texts", VList [VStr "a"; VStr "b"; VStr "c"]);
                 ("textline_orientation_angles",
                  VList [VFloat float_zero; VFloat float_one; VFloat float_zero])])
  = Ok ["a"; "c"].
Proof. reflexivity. Qed.

Example filter_short_angle_list :
  _extract_rec_texts
    (plain_dict [("rec_texts", VList [VStr "a"; VStr "b"; VStr "c"]);
                 ("textline_orientation_angles", VList [VFloat float_one])])
  = Ok ["b"; "c"].
Proof. reflexivity. Qed.

Example filter_keeps_unparseable_angle :
  _extract_rec_texts
    (plain_dict [("rec_texts", VList [VStr "a"; VStr "b"; VStr "c"]);
                 ("textline_orientation_angles",
                  VList [VStr "sideways"; VStr " 1e0 "; VInt 1])])
  = Ok ["a"].
Proof. vm_compute. reflexivity. Qed.

(** ** The request handler *)

Lemma clean_urls_accepted (items : list jitem) :
  clean_urls items = accepted_inputs items.
Proof.
  unfold accepted_inputs. induction items as [|url rest IH]; simpl; [reflexivity|].
  unfold trimmed at 1. destruct (str_truthy (py_strip (py_str url))); now rewrite IH.
Qed.

(** A string element that is not blank is accepted as its trimmed text. *)
Lemma accepted_inputs_strings (items : list jitem) :
  forallb non_blank_string items = true ->
  accepted_inputs items = map trimmed items.
Proof.
  unfold accepted_inputs. induction items as [|url rest IH]; simpl; [reflexivity|].
  intros [Hurl Hrest]%andb_prop. rewrite (IH Hrest).
  destruct url as [s|printed]; [|discriminate]. simpl in Hurl.
  unfold trimmed at 1; simpl. now rewrite Hurl.
Qed.

Lemma combine_fst {A B : Type} (xs : list A) (ys : list B) :
  length ys = length xs -> map fst (combine xs ys) = xs.
Proof.
  revert ys. induction xs as [|x xs IH]; intros [|y ys] Hlen; simpl in *;
    try reflexivity; try discriminate.
  f_equal. apply IH. now injection Hlen.
Qed.

Lemma combine_snd {A B : Type} (xs : list A) (ys : list B) :
  length ys = length xs -> map snd (combine xs ys) = ys.
Proof.
  revert ys. induction xs as [|x xs IH]; intros [|y ys] Hlen; simpl in *;
    try reflexivity; try discriminate.
  f_equal. apply IH. now injection Hlen.
Qed.

(** The loop appends one record per pair, in order. *)
Lemma build_response_inv (pairs : list (string * pyobject)) :
  forall (response rs : list record),
    build_response pairs response = Ok rs ->
    exists new,
      rs = response ++ new /\
      map input_path new = map fst pairs /\
      Forall2 (fun r p => _extract_rec_texts p = Ok (rec_texts r))
        new (map snd pairs).
Proof.
  induction pairs as [|[url prediction] rest IH]; intros response rs; simpl.
  - intros [= <-]. exists []. rewrite app_nil_r. repeat split. constructor.
  - intros (texts & Htexts & Hrest)%bind_Ok_inv.
    destruct (IH _ _ Hrest) as (new & -> & Hpaths & Hall).
    exists ({| input_path := url; rec_texts := texts |} :: new).
    rewrite <- app_assoc. simpl. rewrite Hpaths. repeat split.
    constructor; assumption.
Qed.

Lemma build_response_total (pairs : list (string * pyobject)) :
  forall response,
    Forall (fun p => exists texts, _extract_rec_texts p = Ok texts)
      (map snd pairs) ->
    exists rs, build_response pairs response = Ok rs.
Proof.
  induction pairs as [|[url prediction] rest IH]; intros response Hall; simpl.
  - eauto.
  - simpl in Hall. apply Forall_cons in Hall as [[texts ->] Hall].
    rewrite bind_Ok. now apply IH.
Qed.

(** The handler on a JSON object whose [urls] field leaves accepted inputs. *)
Lemma run_ocr_accepted (predict : list string -> engine_outcome)
    (fields : list (string * jvalue)) (items : list jitem) :
  default (JArray []) (field_lookup fields "urls") = JArray items ->
  accepted_inputs items <> [] ->
  run_ocr predict (JsonObject fields)
  = let urls := accepted_inputs items in
    match predict urls with
    | Failed exc => Run [urls] (Ok (Response (Detail ("OCR failed: " ++ exc)) 500))
    | Interrupted e => Run [urls] (Raise e)
    | Predictions predictions =>
        if negb (length predictions =? length urls)%nat then
          Run [urls] (Ok (Response
            (Detail "Mismatch between predictions and requested URLs.") 500))
        else
          Run [urls]
            (let! response := build_response (combine urls predictions) [] in
             Ok (Response (Records response) 200))
    end.
Proof.
  intros Hurls Hne. unfold run_ocr.
  assert (Hpayload : (if json_truthy (JsonObject fields)
                      then JsonObject fields else JsonObject [])
                     = JsonObject fields) by (destruct fields; reflexivity).
  rewrite Hpayload, Hurls, clean_urls_accepted.
  destruct (accepted_inputs items); [congruence | reflexivity].
Qed.

Lemma payload_of_object (fields : list (string * jvalue)) :
  (if json_truthy (JsonObject fields) then JsonObject fields else JsonObject [])
  = JsonObject fields.
Proof. destruct fields; reflexivity. Qed.

Lemma run_ocr_not_array (predict : list string -> engine_outcome)
    (fields : list (string * jvalue)) :
  field_lookup fields "urls" = Some JNotArray ->
  run_ocr predict (JsonObject fields)
  = Run [] (Ok (Response
      (Detail "The 'urls' field must be a JSON array of strings.") 400)).
Proof. intros Hurls. unfold run_ocr. now rewrite payload_of_object, Hurls. Qed.

Lemma run_ocr_no_input (predict : list string -> engine_outcome)
    (fields : list (string * jvalue)) (items : list jitem) :
  default (JArray []) (field_lookup fields "urls") = JArray items ->
  accepted_inputs items = [] ->
  run_ocr predict (JsonObject fields)
  = Run [] (Ok (Response (Detail "The urls list must not be empty.") 400)).
Proof.
  intros Hurls Hnone. unfold run_ocr.
  now rewrite payload_of_object, Hurls, clean_urls_accepted, Hnone.
Qed.

(** A request body that is not a JSON object never produces records. *)
Lemma run_ocr_not_object (predict : list string -> engine_outcome)
    (json : request_json) (rs : list record) (st : Z) :
  outcome (run_ocr predict json) = Ok (Response (Records rs) st) ->
  exists fields, json = JsonObject fields.
Proof.
  destruct json as [|fields|[|]]; simpl; try discriminate. eauto.
Qed.

(** C4: a response that carries records carries exactly one per accepted
    input, in the order of the inputs, each with the trimmed input text as
    its [input_path] and the texts extracted from the prediction at the same
    position; when the engine returns another number of results than there
    are inputs the response is the HTTP 500 mismatch error and carries no
    record; when the numbers agree and every extraction returns, the
    records are produced. *)
Theorem run_ocr_one_record_per_input
    (predict : list string -> engine_outcome) (json : request_json) :
  (forall rs st,
     outcome (run_ocr predict json) = Ok (Response (Records rs) st) ->
     exists fields items predictions,
       json = JsonObject fields /\
       default (JArray []) (field_lookup fields "urls") = JArray items /\
       predict (accepted_inputs items) = Predictions predictions /\
       st = 200%Z /\
       map input_path rs = accepted_inputs items /\
       length rs = length (accepted_inputs items) /\
       Forall2 (fun r p => _extract_rec_texts p = Ok (rec_texts r))
         rs predictions) /\
  (forall fields items predictions,
     json = JsonObject fields ->
     default (JArray []) (field_lookup fields "urls") = JArray items ->
     accepted_inputs items <> [] ->
     predict (accepted_inputs items) = Predictions predictions ->
     (length predictions <> length (accepted_inputs items) ->
      run_ocr predict json
      = Run [accepted_inputs items]
          (Ok (Response
             (Detail "Mismatch between predictions and requested URLs.") 500))) /\
     (length predictions = length (accepted_inputs items) ->
      Forall (fun p => exists texts, _extract_rec_texts p = Ok texts) predictions ->
      exists rs, outcome (run_ocr predict json) = Ok (Response (Records rs) 200))).
Proof.
  split.
  - intros rs st Hout.
    destruct (run_ocr_not_object _ _ _ _ Hout) as [fields ->].
    destruct (default (JArray []) (field_lookup fields "urls"))
      as [items|] eqn:Hurls.
    2:{ unfold run_ocr in Hout. rewrite payload_of_object, Hurls in Hout.
        discriminate. }
    destruct (list_eq_nil_dec (accepted_inputs items)) as [Hnone|Hsome].
    { rewrite (run_ocr_no_input _ _ _ Hurls Hnone) in Hout. discriminate. }
    rewrite (run_ocr_accepted _ _ _ Hurls Hsome) in Hout. cbn zeta in Hout.
    destruct (predict (accepted_inputs items)) as [predictions|exc|e] eqn:Hpredict;
      [|discriminate ..].
    destruct (length predictions =? length (accepted_inputs items))%nat eqn:Hlen;
      [|discriminate].
    apply Nat.eqb_eq in Hlen. simpl in Hout.
    apply bind_Ok_inv in Hout as (response & Hbuild & [= -> <-]).
    apply build_response_inv in Hbuild as (new & -> & Hpaths & Hall).
    rewrite combine_fst in Hpaths by exact Hlen.
    rewrite combine_snd in Hall by exact Hlen.
    exists fields, items, predictions. simpl.
    repeat split; try assumption.
    now rewrite <- Hpaths, length_map.
  - intros fields items predictions -> Hurls Hsome Hpredict.
    rewrite (run_ocr_accepted _ _ _ Hurls Hsome). cbn zeta. rewrite Hpredict.
    split.
    + intros Hlen. apply Nat.eqb_neq in Hlen. now rewrite Hlen.
    + intros Hlen Hall. apply Nat.eqb_eq in Hlen. rewrite Hlen. simpl.
      apply Nat.eqb_eq in Hlen.
      destruct (build_response_total
                  (combine (accepted_inputs items) predictions) []) as [rs ->].
      { now rewrite combine_snd. }
      exists rs. reflexivity.
Qed.

Lemma run_ocr_one_record_per_input_witness :
  (exists fields items predictions,
     three_urls = JsonObject fields /\
     default (JArray []) (field_lookup fields "urls") = JArray items /\
     echo_engine (accepted_inputs items) = Predictions predictions /\
     200%Z = 200%Z /\
     map input_path
       [Record_ "a.png" ["a.png"]; Record_ "b.png" ["b.png"];
        Record_ "c.png" ["c.png"]]
     = accepted_inputs items /\
     3 = length (accepted_inputs items) /\
     Forall2 (fun r p => _extract_rec_texts p = Ok (rec_texts r))
       [Record_ "a.png" ["a.png"]; Record_ "b.png" ["b.png"];
        Record_ "c.png" ["c.png"]]
       predictions) /\
  run_ocr two_results_engine three_urls
  = Run [["a.png"; "b.png"; "c.png"]]
      (Ok (Response
         (Detail "Mismatch between predictions and requested URLs.") 500)) /\
  exists rs, outcome (run_ocr echo_engine three_urls) = Ok (Response (Records rs) 200).
Proof.
  split; [|split].
  - apply (proj1 (run_ocr_one_record_per_input echo_engine three_urls)
             [Record_ "a.png" ["a.png"]; Record_ "b.png" ["b.png"];
              Record_ "c.png" ["c.png"]] 200%Z).
    reflexivity.
  - apply (proj1 (proj2 (run_ocr_one_record_per_input two_results_engine three_urls)
                    [("urls", JArray three_items)] three_items
                    [plain_dict []; plain_dict []]
                    eq_refl eq_refl ltac:(vm_compute; discriminate) eq_refl)).
    vm_compute. discriminate.
  - apply (proj2 (proj2 (run_ocr_one_record_per_input echo_engine three_urls)
                    [("urls", JArray three_items)] three_items
                    [plain_dict [("rec_texts", VList [VStr "a.png"])];
                     plain_dict [("rec_texts", VList [VStr "b.png"])];
                     plain_dict [("rec_texts", VList [VStr "c.png"])]]
                    eq_refl eq_refl ltac:(vm_compute; discriminate) eq_refl)).
    + reflexivity.
    + repeat (constructor; [eexists; reflexivity|]). constructor.
Defined.

(** C5, as the specification states it, fails: an array with a blank element,
    or with an element that is not a string, is not rejected; the blank
    element is dropped, the other is taken as text, and the engine is
    called. *)
Lemma run_ocr_accepts_untidy_urls_counterexample :
  valid_urls (JArray untidy_items) = false /\
  run_ocr blank_engine (JsonObject [("urls", JArray untidy_items)])
  = Run [["a"; "5"]]
      (Ok (Response (Records [Record_ "a" []; Record_ "5" []]) 200)).
Proof. split; vm_compute; reflexivity. Qed.

(** C5, amended: on a JSON object the handler answers HTTP 400 without
    calling the engine when [urls] is not an array, and when no element of
    the array (an absent field counting as the empty array) is left once
    every element is turned into text, trimmed, and dropped if blank; in
    every other case the engine is called once, with the elements left, in
    order; a non-empty array of non-blank strings is such a case and all of
    its trimmed elements are passed on. *)
Theorem run_ocr_rejects_before_engine
    (predict : list string -> engine_outcome) (fields : list (string * jvalue)) :
  (field_lookup fields "urls" = Some JNotArray ->
   run_ocr predict (JsonObject fields)
   = Run [] (Ok (Response
       (Detail "The 'urls' field must be a JSON array of strings.") 400))) /\
  (forall items,
     default (JArray []) (field_lookup fields "urls") = JArray items ->
     accepted_inputs items = [] ->
     run_ocr predict (JsonObject fields)
     = Run [] (Ok (Response (Detail "The urls list must not be empty.") 400))) /\
  (forall items,
     default (JArray []) (field_lookup fields "urls") = JArray items ->
     accepted_inputs items <> [] ->
     engine_calls (run_ocr predict (JsonObject fields)) = [accepted_inputs items]) /\
  (forall items,
     valid_urls (JArray items) = true ->
     accepted_inputs items = map trimmed items /\ accepted_inputs items <> []).
Proof.
  split; [apply run_ocr_not_array|].
  split; [apply run_ocr_no_input|]. split.
  - intros items Hurls Hsome. rewrite (run_ocr_accepted _ _ _ Hurls Hsome).
    cbn zeta. destruct (predict (accepted_inputs items)) as [predictions|exc|e];
      [|reflexivity ..].
    destruct (negb _); reflexivity.
  - intros [|url rest] Hvalid; [discriminate|].
    cbn [valid_urls] in Hvalid. rewrite (accepted_inputs_strings _ Hvalid).
    split; [reflexivity | discriminate].
Qed.

Lemma run_ocr_rejects_before_engine_witness :
  run_ocr echo_engine (JsonObject [("urls", JNotArray)])
  = Run [] (Ok (Response
      (Detail "The 'urls' field must be a JSON array of strings.") 400)) /\
  run_ocr echo_engine (JsonObject [("urls", JArray [])])
  = Run [] (Ok (Response (Detail "The urls list must not be empty.") 400)) /\
  engine_calls (run_ocr echo_engine (JsonObject [("urls", JArray untidy_items)]))
  = [["a"; "5"]] /\
  accepted_inputs three_items = ["a.png"; "b.png"; "c.png"].
Proof.
  split; [|split; [|split]].
  - apply (proj1 (run_ocr_rejects_before_engine echo_engine [("urls", JNotArray)])).
    reflexivity.
  - apply (proj1 (proj2 (run_ocr_rejects_before_engine echo_engine
                           [("urls", JArray [])])) []); reflexivity.
  - apply (proj1 (proj2 (proj2 (run_ocr_rejects_before_engine echo_engine
                                  [("urls", JArray untidy_items)])))
             untidy_items); [reflexivity | vm_compute; discriminate].
  - apply (proj1 (proj2 (proj2 (proj2 (run_ocr_rejects_before_engine echo_engine
                                         [("urls", JArray three_items)])))
                    three_items eq_refl)).
Defined.

(** * Further properties of the handler and of the normalisation core *)

(** ** Trimming *)

Lemma lstrip_split (space : ascii -> bool) (cs : list ascii) :
  exists pre, cs = pre ++ lstrip space cs /\ forallb space pre = true.
Proof.
  induction cs as [|c cs (pre & Hcs & Hpre)]; simpl.
  - exists []. auto.
  - destruct (space c) eqn:Hc.
    + exists (c :: pre). simpl. rewrite Hc, Hpre. split; [congruence | reflexivity].
    + exists []. auto.
Qed.

(** A list that does not start with a blank is left alone. *)
Lemma lstrip_fixed (space : ascii -> bool) (cs : list ascii) :
  match cs with c :: _ => space c = false | [] => True end ->
  lstrip space cs = cs.
Proof. destruct cs as [|c cs]; simpl; [reflexivity | now intros ->]. Qed.

Lemma lstrip_head (space : ascii -> bool) (cs : list ascii) :
  match lstrip space cs with c :: _ => space c = false | [] => True end.
Proof.
  induction cs as [|c cs IH]; simpl; [exact I|].
  destruct (space c) eqn:Hc; [exact IH | exact Hc].
Qed.

Lemma lstrip_idempotent (space : ascii -> bool) (cs : list ascii) :
  lstrip space (lstrip space cs) = lstrip space cs.
Proof. apply lstrip_fixed, lstrip_head. Qed.

(** What [strip_with] returns starts with no blank. *)
Lemma strip_with_head (space : ascii -> bool) (cs : list ascii) :
  lstrip space (strip_with space cs) = strip_with space cs.
Proof.
  unfold strip_with. apply lstrip_fixed.
  destruct (lstrip_split space (rev (lstrip space cs))) as (pre & Hrev & _).
  pose proof (lstrip_head space cs) as Hhead.
  apply (f_equal (@rev ascii)) in Hrev. rewrite rev_involutive, rev_app_distr in Hrev.
  destruct (rev (lstrip space (rev (lstrip space cs)))) as [|x r]; [exact I|].
  rewrite Hrev in Hhead. exact Hhead.
Qed.

Lemma strip_with_idempotent (space : ascii -> bool) (cs : list ascii) :
  strip_with space (strip_with space cs) = strip_with space cs.
Proof.
  rewrite <- (strip_with_head space cs) at 2.
  unfold strip_with at 1. rewrite strip_with_head.
  unfold strip_with. now rewrite rev_involutive, lstrip_idempotent.
Qed.

Lemma py_strip_idempotent (s : string) : py_strip (py_strip s) = py_strip s.
Proof.
  unfold py_strip, chars.
  now rewrite list_ascii_of_string_of_list_ascii, strip_with_idempotent.
Qed.

(** ** What the engine is given *)

Lemma accepted_inputs_In (items : list jitem) (s : string) :
  In s (accepted_inputs items) <->
  str_truthy s = true /\ exists url, In url items /\ s = trimmed url.
Proof.
  unfold accepted_inputs. rewrite List.filter_In, in_map_iff.
  split.
  - intros [(url & <- & Hin) Hs]. eauto.
  - intros (Hs & url & Hin & ->). eauto.
Qed.

Lemma accepted_inputs_sublist (items : list jitem) :
  sublist (accepted_inputs items) (map trimmed items).
Proof.
  unfold accepted_inputs.
  induction (map trimmed items) as [|s ss IH]; simpl; [constructor|].
  destruct (str_truthy s); constructor; exact IH.
Qed.

(** The engine calls of a request, in closed form. *)
Lemma run_ocr_engine_calls (predict : list string -> engine_outcome)
    (json : request_json) :
  engine_calls (run_ocr predict json)
  = match json with
    | JsonObject fields =>
        match default (JArray []) (field_lookup fields "urls") with
        | JArray items =>
            match accepted_inputs items with
            | [] => []
            | urls => [urls]
            end
        | JNotArray => []
        end
    | NoJson | JsonOther _ => []
    end.
Proof.
  destruct json as [|fields|[|]]; try reflexivity.
  destruct (default (JArray []) (field_lookup fields "urls")) as [items|] eqn:Hurls.
  - destruct (list_eq_nil_dec (accepted_inputs items)) as [Hnone|Hsome].
    + rewrite (run_ocr_no_input _ _ _ Hurls Hnone), Hnone. reflexivity.
    + rewrite (run_ocr_accepted _ _ _ Hurls Hsome). cbn zeta.
      destruct (accepted_inputs items) as [|u us] eqn:Hacc; [congruence|].
      destruct (predict (u :: us)) as [predictions|exc|e]; [|reflexivity ..].
      destruct (negb _); reflexivity.
  - unfold run_ocr. rewrite payload_of_object, Hurls. reflexivity.
Qed.

(** X1: the engine is called at most once per request, and what it is given
    is never empty: it is the list of the elements of [urls] as text,
    trimmed, in request order, with the blank ones left out; every string in
    it is non-empty and trimming it again changes nothing. *)
Theorem run_ocr_engine_inputs_clean
    (predict : list string -> engine_outcome) (json : request_json)
    (urls : list string) :
  In urls (engine_calls (run_ocr predict json)) ->
  engine_calls (run_ocr predict json) = [urls] /\
  urls <> [] /\
  Forall (fun s => s <> "" /\ py_strip s = s) urls /\
  exists fields items,
    json = JsonObject fields /\
    default (JArray []) (field_lookup fields "urls") = JArray items /\
    urls = accepted_inputs items /\
    sublist urls (map trimmed items).
Proof.
  rewrite run_ocr_engine_calls.
  destruct json as [|fields|t]; try (intros []).
  destruct (default (JArray []) (field_lookup fields "urls")) as [items|] eqn:Hurls;
    [|intros []].
  destruct (accepted_inputs items) as [|u us] eqn:Hacc; [intros []|].
  intros [<-|[]]. split; [reflexivity|]. split; [discriminate|]. split.
  - rewrite <- Hacc. apply List.Forall_forall. intros s Hs.
    apply accepted_inputs_In in Hs as (Htruthy & url & _ & ->). split.
    + intros Hblank. rewrite Hblank in Htruthy. discriminate.
    + apply py_strip_idempotent.
  - exists fields, items. rewrite <- Hacc.
    repeat split; [exact Hurls | apply accepted_inputs_sublist].
Qed.

Lemma run_ocr_engine_inputs_clean_witness :
  engine_calls (run_ocr echo_engine (JsonObject [("urls", JArray untidy_items)]))
  = [["a"; "5"]] /\
  Forall (fun s => s <> "" /\ py_strip s = s) ["a"; "5"].
Proof.
  pose proof (run_ocr_engine_inputs_clean echo_engine
                (JsonObject [("urls", JArray untidy_items)]) ["a"; "5"]
                ltac:(left; reflexivity)) as (Hcalls & _ & Hclean & _).
  split; [exact Hcalls | exact Hclean].
Defined.

(** ** Responses *)

(** X2: a response is of one of three kinds: HTTP 200 with records, after
    exactly one engine call; HTTP 400 with a detail text, with no engine
    call; HTTP 500 with a detail text, after exactly one engine call.  No
    other status is produced and records never come with an error status. *)
Theorem run_ocr_status_discipline
    (predict : list string -> engine_outcome) (json : request_json)
    (b : body) (st : Z) :
  outcome (run_ocr predict json) = Ok (Response b st) ->
  (st = 200%Z /\ (exists rs, b = Records rs) /\
   length (engine_calls (run_ocr predict json)) = 1) \/
  (st = 400%Z /\ (exists d, b = Detail d) /\
   engine_calls (run_ocr predict json) = []) \/
  (st = 500%Z /\ (exists d, b = Detail d) /\
   length (engine_calls (run_ocr predict json)) = 1).
Proof.
  destruct json as [|fields|[|]].
  - intros [= <- <-]. right; left. eauto.
  - destruct (default (JArray []) (field_lookup fields "urls"))
      as [items|] eqn:Hurls.
    + destruct (list_eq_nil_dec (accepted_inputs items)) as [Hnone|Hsome].
      * rewrite (run_ocr_no_input _ _ _ Hurls Hnone).
        intros [= <- <-]. right; left. eauto.
      * rewrite (run_ocr_accepted _ _ _ Hurls Hsome). cbn zeta.
        destruct (predict (accepted_inputs items)) as [predictions|exc|e].
        -- destruct (negb _).
           ++ intros [= <- <-]. right; right. eauto.
           ++ simpl. intros (rs & _ & [= <- <-])%bind_Ok_inv. left. eauto.
        -- intros [= <- <-]. right; right. eauto.
        -- discriminate.
    + unfold run_ocr. rewrite payload_of_object, Hurls.
      intros [= <- <-]. right; left. eauto.
  - discriminate.
  - intros [= <- <-]. right; left. eauto.
Qed.

Lemma run_ocr_status_discipline_witness :
  (200%Z = 200%Z /\
   (exists rs, Records [Record_ "a" []; Record_ "5" []] = Records rs) /\
   length (engine_calls
             (run_ocr blank_engine (JsonObject [("urls", JArray untidy_items)]))) = 1) \/
  (200%Z = 400%Z /\
   (exists d, Records [Record_ "a" []; Record_ "5" []] = Detail d) /\
   engine_calls (run_ocr blank_engine (JsonObject [("urls", JArray untidy_items)]))
   = []) \/
  (200%Z = 500%Z /\
   (exists d, Records [Record_ "a" []; Record_ "5" []] = Detail d) /\
   length (engine_calls
             (run_ocr blank_engine (JsonObject [("urls", JArray untidy_items)]))) = 1).
Proof.
  apply (run_ocr_status_discipline blank_engine
           (JsonObject [("urls", JArray untidy_items)])
           (Records [Record_ "a" []; Record_ "5" []]) 200%Z).
  reflexivity.
Defined.

(** X3: a request counts only through its accepted inputs: two JSON objects
    whose [urls] arrays leave the same texts once trimmed and rid of blanks
    get the same engine call and the same response, so padding an element or
    adding blank elements changes nothing. *)
Theorem run_ocr_depends_on_accepted_inputs
    (predict : list string -> engine_outcome)
    (fields1 fields2 : list (string * jvalue)) (items1 items2 : list jitem) :
  default (JArray []) (field_lookup fields1 "urls") = JArray items1 ->
  default (JArray []) (field_lookup fields2 "urls") = JArray items2 ->
  accepted_inputs items1 = accepted_inputs items2 ->
  run_ocr predict (JsonObject fields1) = run_ocr predict (JsonObject fields2).
Proof.
  intros H1 H2 Hsame.
  destruct (list_eq_nil_dec (accepted_inputs items1)) as [Hnone|Hsome].
  - rewrite (run_ocr_no_input _ _ _ H1 Hnone).
    rewrite Hsame in Hnone. now rewrite (run_ocr_no_input _ _ _ H2 Hnone).
  - rewrite (run_ocr_accepted _ _ _ H1 Hsome).
    rewrite Hsame in Hsome. rewrite (run_ocr_accepted _ _ _ H2 Hsome).
    now rewrite Hsame.
Qed.

Lemma run_ocr_depends_on_accepted_inputs_witness :
  run_ocr echo_engine (JsonObject [("urls", JArray padded_items)])
  = run_ocr echo_engine (JsonObject [("other", JNotArray); ("urls", JArray three_items)]).
Proof.
  apply (run_ocr_depends_on_accepted_inputs echo_engine
           [("urls", JArray padded_items)]
           [("other", JNotArray); ("urls", JArray three_items)]
           padded_items three_items); reflexivity.
Defined.

Lemma accepted_inputs_blank (items : list jitem) :
  Forall (fun url => py_strip (py_str url) = "") items ->
  accepted_inputs items = [].
Proof.
  unfold accepted_inputs.
  induction 1 as [|url rest Hurl _ IH]; simpl; [reflexivity|].
  unfold trimmed at 1. rewrite Hurl. simpl. exact IH.
Qed.

(** X4: a request without a usable [urls] array is answered like an empty
    one: no body, a body that is not JSON, a falsy JSON value, an object
    without the [urls] field and an array of blanks all get the HTTP 400
    "must not be empty" response and no engine call.  A truthy JSON body
    that is not an object is not answered at all: the lookup of [urls]
    raises AttributeError out of the handler, again without an engine
    call. *)
Theorem run_ocr_without_urls (predict : list string -> engine_outcome) :
  run_ocr predict NoJson = empty_urls_answer /\
  run_ocr predict (JsonOther false) = empty_urls_answer /\
  (forall fields,
     field_lookup fields "urls" = None ->
     run_ocr predict (JsonObject fields) = empty_urls_answer) /\
  (forall fields items,
     field_lookup fields "urls" = Some (JArray items) ->
     Forall (fun url => py_strip (py_str url) = "") items ->
     run_ocr predict (JsonObject fields) = empty_urls_answer) /\
  run_ocr predict (JsonOther true) = Run [] (Raise AttributeError).
Proof.
  repeat split; try reflexivity.
  - intros fields Hurls. apply (run_ocr_no_input _ _ []);
      [rewrite Hurls; reflexivity | reflexivity].
  - intros fields items Hurls Hblank.
    apply (run_ocr_no_input _ _ items); [rewrite Hurls; reflexivity|].
    now apply accepted_inputs_blank.
Qed.

Lemma run_ocr_without_urls_witness :
  run_ocr echo_engine (JsonObject [("paths", JArray three_items)])
  = Run [] (Ok (Response (Detail "The urls list must not be empty.") 400)) /\
  run_ocr echo_engine (JsonObject [("urls", JArray [JString "  "; JString ""])])
  = Run [] (Ok (Response (Detail "The urls list must not be empty.") 400)).
Proof.
  split.
  - apply (proj1 (proj2 (proj2 (run_ocr_without_urls echo_engine)))
             [("paths", JArray three_items)]).
    reflexivity.
  - apply (proj1 (proj2 (proj2 (proj2 (run_ocr_without_urls echo_engine))))
             [("urls", JArray [JString "  "; JString ""])]
             [JString "  "; JString ""]).
    + reflexivity.
    + repeat constructor.
Defined.

(** ** Exceptions that escape the handler *)

Lemma build_response_raise (pairs : list (string * pyobject)) :
  forall (response : list record) (k : nat) (p : pyobject) (e : exn),
    map snd pairs !! k = Some p ->
    _extract_rec_texts p = Raise e ->
    (forall j q, j < k -> map snd pairs !! j = Some q ->
                 exists texts, _extract_rec_texts q = Ok texts) ->
    build_response pairs response = Raise e.
Proof.
  induction pairs as [|[url prediction] rest IH]; intros response k p e Hk He Hbefore.
  - discriminate.
  - destruct k as [|k]; simpl in *.
    + injection Hk as ->. now rewrite He.
    + destruct (Hbefore 0 prediction ltac:(lia) eq_refl) as [texts ->].
      rewrite bind_Ok. apply (IH _ k p e Hk He).
      intros j q Hj Hq. apply (Hbefore (S j) q); [lia | exact Hq].
Qed.

Lemma build_response_raise_inv (pairs : list (string * pyobject)) :
  forall (response : list record) (e : exn),
    build_response pairs response = Raise e ->
    exists k p,
      map snd pairs !! k = Some p /\ _extract_rec_texts p = Raise e /\
      (forall j q, j < k -> map snd pairs !! j = Some q ->
                   exists texts, _extract_rec_texts q = Ok texts).
Proof.
  induction pairs as [|[url prediction] rest IH]; intros response e; simpl.
  - discriminate.
  - destruct (_extract_rec_texts prediction) as [texts|e'] eqn:Hp; simpl.
    + intros (k & p & Hk & He & Hbefore)%IH.
      exists (S k), p. repeat split; try assumption.
      intros [|j] q Hj Hq; simpl in Hq.
      * injection Hq as <-. eauto.
      * apply (Hbefore j q); [lia | exact Hq].
    + intros [= ->]. exists 0, prediction. repeat split; try assumption.
      intros j q Hj. lia.
Qed.

(** X5: a batch is all or nothing: when the engine returns as many results
    as there are inputs and the extraction raises on one of them, the first
    such exception escapes the handler and no record is returned for any
    input, the ones before it included. *)
Theorem run_ocr_extraction_failure_fails_batch
    (predict : list string -> engine_outcome)
    (fields : list (string * jvalue)) (items : list jitem)
    (predictions : list pyobject) (k : nat) (p : pyobject) (e : exn) :
  default (JArray []) (field_lookup fields "urls") = JArray items ->
  accepted_inputs items <> [] ->
  predict (accepted_inputs items) = Predictions predictions ->
  length predictions = length (accepted_inputs items) ->
  predictions !! k = Some p ->
  _extract_rec_texts p = Raise e ->
  (forall j q, j < k -> predictions !! j = Some q ->
               exists texts, _extract_rec_texts q = Ok texts) ->
  run_ocr predict (JsonObject fields) = Run [accepted_inputs items] (Raise e).
Proof.
  intros Hurls Hsome Hpredict Hlen Hk He Hbefore.
  rewrite (run_ocr_accepted _ _ _ Hurls Hsome). cbn zeta. rewrite Hpredict.
  apply Nat.eqb_eq in Hlen as Hlen'. rewrite Hlen'. simpl.
  rewrite (build_response_raise _ [] k p e); [reflexivity | | exact He |].
  - now rewrite combine_snd.
  - rewrite combine_snd by exact Hlen. exact Hbefore.
Qed.

Lemma run_ocr_extraction_failure_fails_batch_witness :
  run_ocr one_bad_engine three_urls
  = Run [["a.png"; "b.png"; "c.png"]] (Raise OverflowError).
Proof.
  apply (run_ocr_extraction_failure_fails_batch one_bad_engine
           [("urls", JArray three_items)] three_items
           [mapping_example; huge_angle_result; mapping_example]
           1 huge_angle_result OverflowError
           eq_refl ltac:(vm_compute; discriminate) eq_refl eq_refl eq_refl
           ltac:(vm_compute; reflexivity)).
  intros [|j] q Hj Hq; [|lia].
  injection Hq as <-. eexists. reflexivity.
Defined.

(** X6: an exception escapes the handler in three ways only: AttributeError
    when the body is a truthy JSON value that is not an object, before any
    engine call; an exception of the engine call that is outside the class
    Exception, which [except Exception] does not catch; or the exception that
    the extraction raises on one of the predictions, after the engine
    returned as many predictions as there are inputs.  An engine failure of
    class Exception never escapes: it is answered with HTTP 500. *)
Theorem run_ocr_escaping_exceptions
    (predict : list string -> engine_outcome) (json : request_json) (e : exn) :
  outcome (run_ocr predict json) = Raise e ->
  (json = JsonOther true /\ e = AttributeError /\
   engine_calls (run_ocr predict json) = []) \/
  (exists fields items,
     json = JsonObject fields /\
     default (JArray []) (field_lookup fields "urls") = JArray items /\
     accepted_inputs items <> [] /\
     predict (accepted_inputs items) = Interrupted e) \/
  (exists fields items predictions k p,
     json = JsonObject fields /\
     default (JArray []) (field_lookup fields "urls") = JArray items /\
     predict (accepted_inputs items) = Predictions predictions /\
     length predictions = length (accepted_inputs items) /\
     predictions !! k = Some p /\
     _extract_rec_texts p = Raise e).
Proof.
  destruct json as [|fields|[|]]; try discriminate.
  - destruct (default (JArray []) (field_lookup fields "urls"))
      as [items|] eqn:Hurls.
    + destruct (list_eq_nil_dec (accepted_inputs items)) as [Hnone|Hsome].
      { rewrite (run_ocr_no_input _ _ _ Hurls Hnone). discriminate. }
      rewrite (run_ocr_accepted _ _ _ Hurls Hsome). cbn zeta.
      destruct (predict (accepted_inputs items)) as [predictions|exc|e'] eqn:Hpredict;
        [|discriminate|].
      * destruct (length predictions =? length (accepted_inputs items))%nat eqn:Hlen;
          [|discriminate].
        apply Nat.eqb_eq in Hlen. simpl.
        destruct (build_response _ _) as [rs|e'] eqn:Hbuild; [discriminate|].
        intros [= ->]. right; right.
        apply build_response_raise_inv in Hbuild as (k & p & Hk & He & _).
        rewrite combine_snd in Hk by exact Hlen.
        exists fields, items, predictions, k, p. repeat split; assumption.
      * intros [= ->]. right; left. exists fields, items.
        repeat split; assumption.
    + unfold run_ocr. rewrite payload_of_object, Hurls. discriminate.
  - intros [= <-]. left. auto.
Qed.

Lemma run_ocr_escaping_exceptions_witness :
  (three_urls = JsonOther true /\ OtherError "KeyboardInterrupt" = AttributeError /\
   engine_calls (run_ocr interrupted_engine three_urls) = []) \/
  (exists fields items,
     three_urls = JsonObject fields /\
     default (JArray []) (field_lookup fields "urls") = JArray items /\
     accepted_inputs items <> [] /\
     interrupted_engine (accepted_inputs items)
     = Interrupted (OtherError "KeyboardInterrupt")) \/
  (exists fields items predictions k p,
     three_urls = JsonObject fields /\
     default (JArray []) (field_lookup fields "urls") = JArray items /\
     interrupted_engine (accepted_inputs items) = Predictions predictions /\
     length predictions = length (accepted_inputs items) /\
     predictions !! k = Some p /\
     _extract_rec_texts p = Raise (OtherError "KeyboardInterrupt")).
Proof.
  apply (run_ocr_escaping_exceptions interrupted_engine three_urls
           (OtherError "KeyboardInterrupt")).
  reflexivity.
Defined.

(** ** More on the orientation filter *)

Lemma angle_value_of_raise_inv (a : value) (e : exn) :
  angle_value_of a = Raise e <->
  py_float a = Raise e /\ is_TypeError_or_ValueError e = false.
Proof.
  unfold angle_value_of. split.
  - destruct (is_none a); simpl; [discriminate|].
    destruct (py_float a) as [x|e']; simpl; [discriminate|].
    destruct (is_TypeError_or_ValueError e') eqn:He'; [discriminate|].
    now intros [= <-].
  - intros [Hfloat He].
    assert (Hnone : is_none a = false).
    { destruct a; try reflexivity. simpl in Hfloat. injection Hfloat as <-.
      discriminate. }
    rewrite Hnone, Hfloat. simpl. now rewrite He.
Qed.

Lemma filter_loop_sublist (angles : list value) (texts : list string) :
  forall (idx : nat) (filtered out : list string),
    filter_loop angles idx texts filtered = Ok out ->
    exists kept, out = filtered ++ kept /\ sublist kept texts.
Proof.
  induction texts as [|text rest IH]; intros idx filtered out; simpl.
  - intros [= <-]. exists []. rewrite app_nil_r. split; [reflexivity | constructor].
  - destruct (angle_value_of (default VNone (angles !! idx))) as [av|e];
      simpl; [|discriminate].
    destruct (equals_one av).
    + intros (kept & -> & Hsub)%IH. exists kept.
      split; [reflexivity | now constructor].
    + intros (kept & -> & Hsub)%IH. exists (text :: kept).
      rewrite <- app_assoc. split; [reflexivity | now constructor].
Qed.

Lemma filter_loop_raise_inv (angles : list value) (texts : list string) :
  forall (idx : nat) (filtered : list string) (e : exn),
    filter_loop angles idx texts filtered = Raise e ->
    exists i a,
      idx <= i < idx + length texts /\ angles !! i = Some a /\
      py_float a = Raise e /\ is_TypeError_or_ValueError e = false.
Proof.
  induction texts as [|text rest IH]; intros idx filtered e; simpl.
  - discriminate.
  - destruct (angle_value_of (default VNone (angles !! idx))) as [av|e'] eqn:Hav;
      simpl.
    + assert (Hrest : forall acc, filter_loop angles (S idx) rest acc = Raise e ->
                exists i a, idx <= i < idx + S (length rest) /\
                  angles !! i = Some a /\ py_float a = Raise e /\
                  is_TypeError_or_ValueError e = false).
      { intros acc (i & a & Hi & Hrest)%IH. exists i, a. split; [lia | exact Hrest]. }
      destruct (equals_one av); apply Hrest.
    + intros [= ->]. apply angle_value_of_raise_inv in Hav as [Hfloat He].
      destruct (angles !! idx) as [a|] eqn:Ha; simpl in Hfloat.
      * exists idx, a. repeat split; try assumption; lia.
      * injection Hfloat as <-. discriminate.
Qed.

Lemma filter_loop_first_raise (angles : list value) (texts : list string) :
  forall (idx : nat) (filtered : list string) (i : nat) (a : value) (e : exn),
    idx <= i < idx + length texts ->
    angles !! i = Some a ->
    py_float a = Raise e ->
    is_TypeError_or_ValueError e = false ->
    (forall j b, idx <= j < i -> angles !! j = Some b ->
                 conversion_handled b = true) ->
    filter_loop angles idx texts filtered = Raise e.
Proof.
  induction texts as [|text rest IH]; intros idx filtered i a e Hi Ha Hfloat He Hbefore.
  - simpl in Hi. lia.
  - cbn [filter_loop].
    destruct (Nat.eq_dec i idx) as [->|Hne].
    + rewrite Ha. simpl.
      now rewrite (proj2 (angle_value_of_raise_inv a e) (conj Hfloat He)).
    + destruct (angle_value_keeps angles idx) as (av & -> & _).
      { intros b Hb. apply (Hbefore idx); [lia | exact Hb]. }
      rewrite bind_Ok.
      assert (Hrest : forall acc, filter_loop angles (S idx) rest acc = Raise e).
      { intros acc. apply (IH (S idx) acc i a e); try assumption.
        - simpl in Hi. lia.
        - intros j b Hj. apply Hbefore. lia. }
      destruct (equals_one av); apply Hrest.
Qed.

(** The loop looks at the angles below the number of texts only. *)
Lemma filter_loop_agree (angles angles' : list value) (texts : list string) :
  forall (idx : nat) (filtered : list string),
    (forall i, idx <= i < idx + length texts -> angles !! i = angles' !! i) ->
    filter_loop angles idx texts filtered
    = filter_loop angles' idx texts filtered.
Proof.
  induction texts as [|text rest IH]; intros idx filtered Hsame; [reflexivity|].
  cbn [filter_loop]. rewrite <- (Hsame idx) by (simpl; lia).
  destruct (angle_value_of (default VNone (angles !! idx))) as [av|e];
    [|reflexivity].
  rewrite !bind_Ok.
  assert (Hrest : forall acc, filter_loop angles (S idx) rest acc
                              = filter_loop angles' (S idx) rest acc).
  { intros acc. apply IH. intros i Hi. apply Hsame. simpl. lia. }
  destruct (equals_one av); apply Hrest.
Qed.

(** X8: whatever the angles are, the texts returned are some of the string
    entries of the extracted [rec_texts], in their original order: nothing is
    added, repeated or moved; in particular there are never more texts than
    string entries. *)
Theorem extract_rec_texts_sublist (p : pyobject) (out : list string) :
  _extract_rec_texts p = Ok out ->
  exists raw,
    _extract_list_field p "rec_texts" = Ok raw /\
    sublist out (str_entries raw) /\
    length out <= length (str_entries raw) /\
    (forall s, In s out -> In (VStr s) raw).
Proof.
  unfold _extract_rec_texts.
  intros (raw & Hraw & Hout)%bind_Ok_inv. exists raw.
  split; [exact Hraw|].
  assert (Hsub : sublist out (str_entries raw)).
  { destruct (str_entries raw) as [|t ts] eqn:Hts.
    - injection Hout as <-. constructor.
    - apply bind_Ok_inv in Hout as (angles & _ & Hout).
      destruct angles as [|a0 rest].
      + injection Hout as <-. reflexivity.
      + apply filter_loop_sublist in Hout as (kept & -> & Hsub). exact Hsub. }
  split; [exact Hsub|]. split; [now apply sublist_length|].
  intros s Hs. apply str_entries_In.
  apply list_elem_of_In. eapply elem_of_sublist; [|exact Hsub].
  now apply list_elem_of_In.
Qed.

Lemma extract_rec_texts_sublist_witness :
  exists raw,
    _extract_list_field short_angle_result "rec_texts" = Ok raw /\
    sublist ["a"; "c"; "d"] (str_entries raw) /\
    3 <= length (str_entries raw) /\
    (forall s, In s ["a"; "c"; "d"] -> In (VStr s) raw).
Proof.
  apply (extract_rec_texts_sublist short_angle_result ["a"; "c"; "d"]).
  reflexivity.
Defined.

(** X9: the first angle, in index order below the number of texts, whose
    [float()] raises something other than TypeError or ValueError makes the
    whole call raise that exception; the texts accepted before it are
    lost. *)
Theorem extract_rec_texts_first_unhandled_angle
    (p : pyobject) (raw angles : list value) (i : nat) (a : value) (e : exn) :
  _extract_list_field p "rec_texts" = Ok raw ->
  _extract_list_field p "textline_orientation_angles" = Ok angles ->
  i < length (str_entries raw) ->
  angles !! i = Some a ->
  py_float a = Raise e ->
  is_TypeError_or_ValueError e = false ->
  (forall j b, j < i -> angles !! j = Some b -> conversion_handled b = true) ->
  _extract_rec_texts p = Raise e.
Proof.
  intros Hraw Hangles Hi Ha Hfloat He Hbefore.
  unfold _extract_rec_texts. rewrite Hraw, bind_Ok.
  destruct (str_entries raw) as [|t ts] eqn:Hts; [simpl in Hi; lia|].
  rewrite Hangles, bind_Ok.
  destruct angles as [|a0 rest]; [discriminate|].
  apply (filter_loop_first_raise _ _ 0 [] i a e); try assumption.
  - lia.
  - intros j b [_ Hj]. now apply Hbefore.
Qed.

Lemma extract_rec_texts_first_unhandled_angle_witness :
  _extract_rec_texts late_huge_angle_result = Raise OverflowError.
Proof.
  apply (extract_rec_texts_first_unhandled_angle late_huge_angle_result
           [VStr "a"; VStr "b"; VStr "c"]
           [VFloat float_one; VInt (10 ^ 400); VStr "x"]
           1 (VInt (10 ^ 400)) OverflowError
           eq_refl eq_refl ltac:(simpl; lia) eq_refl
           ltac:(vm_compute; reflexivity) eq_refl).
  intros [|j] b Hj Hb; [|lia].
  injection Hb as <-. reflexivity.
Defined.

(** X10: the call raises in three ways only: the extraction of [rec_texts]
    raises; or there is a string among the texts and the extraction of the
    angles raises; or [float()] of an angle at an index below the number of
    texts raises something other than TypeError or ValueError.  In each case
    the exception raised is the one that escapes. *)
Theorem extract_rec_texts_raise_inv (p : pyobject) (e : exn) :
  _extract_rec_texts p = Raise e ->
  _extract_list_field p "rec_texts" = Raise e \/
  (exists raw,
     _extract_list_field p "rec_texts" = Ok raw /\ str_entries raw <> [] /\
     _extract_list_field p "textline_orientation_angles" = Raise e) \/
  (exists raw angles i a,
     _extract_list_field p "rec_texts" = Ok raw /\
     _extract_list_field p "textline_orientation_angles" = Ok angles /\
     i < length (str_entries raw) /\ angles !! i = Some a /\
     py_float a = Raise e /\ is_TypeError_or_ValueError e = false).
Proof.
  unfold _extract_rec_texts.
  destruct (_extract_list_field p "rec_texts") as [raw|e1] eqn:Hraw; cbn [bind].
  - destruct (str_entries raw) as [|t ts] eqn:Hts; [discriminate|].
    destruct (_extract_list_field p "textline_orientation_angles")
      as [angles|e2] eqn:Hangles; cbn [bind].
    + destruct angles as [|a0 rest]; [discriminate|].
      intros (i & a & Hi & Ha & Hfloat & He)%filter_loop_raise_inv.
      right; right. exists raw, (a0 :: rest), i, a. rewrite Hts.
      repeat split; try assumption. lia.
    + intros [= ->]. right; left. exists raw. rewrite Hts.
      repeat split. discriminate.
  - intros [= ->]. now left.
Qed.

Lemma extract_rec_texts_raise_inv_witness :
  _extract_list_field huge_angle_result "rec_texts" = Raise OverflowError \/
  (exists raw,
     _extract_list_field huge_angle_result "rec_texts" = Ok raw /\
     str_entries raw <> [] /\
     _extract_list_field huge_angle_result "textline_orientation_angles"
     = Raise OverflowError) \/
  (exists raw angles i a,
     _extract_list_field huge_angle_result "rec_texts" = Ok raw /\
     _extract_list_field huge_angle_result "textline_orientation_angles"
     = Ok angles /\
     i < length (str_entries raw) /\ angles !! i = Some a /\
     py_float a = Raise OverflowError /\
     is_TypeError_or_ValueError OverflowError = false).
Proof.
  apply (extract_rec_texts_raise_inv huge_angle_result OverflowError).
  vm_compute. reflexivity.
Defined.

Lemma kept_indices_length {A : Type} (P : nat -> bool) (xs : list A) :
  forall idx,
    length (map snd (List.filter (fun it => P (fst it))
                       (combine (seq idx (length xs)) xs)))
    + length (List.filter (fun i => negb (P i)) (seq idx (length xs)))
    = length xs.
Proof.
  induction xs as [|x xs IH]; intros idx; simpl; [reflexivity|].
  specialize (IH (S idx)). destruct (P idx); simpl; lia.
Qed.

Lemma kept_indices_all {A : Type} (P : nat -> bool) (xs : list A) :
  forall idx,
    (forall i, idx <= i < idx + length xs -> P i = true) ->
    map snd (List.filter (fun it => P (fst it))
               (combine (seq idx (length xs)) xs)) = xs.
Proof.
  induction xs as [|x xs IH]; intros idx HP; simpl; [reflexivity|].
  rewrite (HP idx) by (simpl; lia). simpl. f_equal.
  apply IH. intros i Hi. apply HP. simpl. lia.
Qed.

Lemma kept_indices_none {A : Type} (P : nat -> bool) (xs : list A) :
  forall idx,
    (forall i, idx <= i < idx + length xs -> P i = false) ->
    map snd (List.filter (fun it => P (fst it))
               (combine (seq idx (length xs)) xs)) = [].
Proof.
  induction xs as [|x xs IH]; intros idx HP; simpl; [reflexivity|].
  rewrite (HP idx) by (simpl; lia).
  apply IH. intros i Hi. apply HP. simpl. lia.
Qed.

Lemma keeps_nil (i : nat) : keeps [] i = true.
Proof. reflexivity. Qed.

(** C8: the texts that reach the orientation filter are the string entries
    of the raw extraction, in their order: the other entries are dropped
    before the filter runs, so the angle at index [i] is matched with the
    [i]-th string entry, not with the [i]-th raw entry.  Whenever the angles
    are extracted and converted, the result is the string entries at the
    kept indices; whatever the angles, it is a sublist of the string entries;
    and a result whose raw extraction is just those strings is treated the
    same. *)
Theorem extract_rec_texts_drops_non_strings (p : pyobject) (raw : list value) :
  _extract_list_field p "rec_texts" = Ok raw ->
  map VStr (str_entries raw) = List.filter isinstance_str raw /\
  (forall s, In s (str_entries raw) <-> In (VStr s) raw) /\
  (forall p',
     _extract_list_field p' "rec_texts" = Ok (List.filter isinstance_str raw) ->
     _extract_list_field p' "textline_orientation_angles"
     = _extract_list_field p "textline_orientation_angles" ->
     _extract_rec_texts p' = _extract_rec_texts p) /\
  (forall angles,
     _extract_list_field p "textline_orientation_angles" = Ok angles ->
     (forall i a, i < length (str_entries raw) -> angles !! i = Some a ->
                  conversion_handled a = true) ->
     _extract_rec_texts p = Ok (accepted angles (str_entries raw))) /\
  (forall out, _extract_rec_texts p = Ok out -> sublist out (str_entries raw)).
Proof.
  intros Hraw. split; [apply str_entries_filter|]. split; [apply str_entries_In|].
  split; [|split].
  - intros p' Hraw' Hangles. unfold _extract_rec_texts.
    rewrite Hraw, Hraw', Hangles, !bind_Ok.
    now rewrite <- str_entries_filter, str_entries_strs.
  - intros angles Hangles Hhandled.
    unfold _extract_rec_texts. rewrite Hraw, bind_Ok.
    destruct (str_entries raw) as [|t ts] eqn:Hts; [reflexivity|].
    rewrite Hangles, bind_Ok. destruct angles as [|a0 rest].
    + unfold accepted. rewrite kept_indices_all; [reflexivity|].
      intros i _. apply keeps_nil.
    + rewrite filter_loop_accepted; [reflexivity|].
      intros i a [_ Hi]. now apply Hhandled.
  - intros out. unfold _extract_rec_texts. rewrite Hraw, bind_Ok.
    destruct (str_entries raw) as [|t ts] eqn:Hts.
    + intros [= <-]. constructor.
    + intros (angles & _ & Hout)%bind_Ok_inv.
      destruct angles as [|a0 rest].
      * injection Hout as <-. reflexivity.
      * apply filter_loop_sublist in Hout as (kept & -> & Hsub). exact Hsub.
Qed.

Lemma extract_rec_texts_drops_non_strings_witness :
  map VStr (str_entries [VStr "a"; VInt 7; VStr "b"]) = [VStr "a"; VStr "b"] /\
  _extract_rec_texts strings_only_result = _extract_rec_texts mixed_result /\
  _extract_rec_texts realigned_result = Ok ["a"] /\
  sublist ["a"] ["a"; "b"].
Proof.
  pose proof (extract_rec_texts_drops_non_strings mixed_result
                [VStr "a"; VInt 7; VStr "b"] eq_refl) as (Hfilter & _ & Hsame & _).
  pose proof (extract_rec_texts_drops_non_strings realigned_result
                [VStr "a"; VInt 7; VStr "b"] eq_refl)
    as (_ & _ & _ & Hkept & Hsub).
  split; [exact Hfilter|]. split; [apply Hsame; reflexivity|]. split.
  - apply (Hkept [VInt 0; VInt 1; VInt 0] eq_refl).
    intros [|[|[|i]]] a _ Ha; simpl in Ha;
      [injection Ha as <-; reflexivity ..| discriminate Ha].
  - apply (Hsub ["a"]). reflexivity.
Defined.

(** X11: the two early returns agree with the loop: whenever both fields
    are extracted and [float()] of every angle below the number of texts
    returns or raises TypeError or ValueError, the result is the list of the
    texts whose index is kept, be the texts or the angles empty or not.  The
    texts returned and the indices rejected add up to the number of texts;
    when no index is rejected all the texts come back, and when all are,
    none does. *)
Theorem extract_rec_texts_closed_form (p : pyobject) (raw angles : list value) :
  _extract_list_field p "rec_texts" = Ok raw ->
  _extract_list_field p "textline_orientation_angles" = Ok angles ->
  (forall i a, i < length (str_entries raw) -> angles !! i = Some a ->
               conversion_handled a = true) ->
  _extract_rec_texts p = Ok (accepted angles (str_entries raw)) /\
  length (accepted angles (str_entries raw))
  + length (List.filter (fun i => negb (keeps angles i))
              (seq 0 (length (str_entries raw))))
  = length (str_entries raw) /\
  ((forall i, i < length (str_entries raw) -> keeps angles i = true) ->
   _extract_rec_texts p = Ok (str_entries raw)) /\
  ((forall i, i < length (str_entries raw) -> keeps angles i = false) ->
   _extract_rec_texts p = Ok []).
Proof.
  intros Hraw Hangles Hhandled.
  assert (Hclosed : _extract_rec_texts p = Ok (accepted angles (str_entries raw))).
  { unfold _extract_rec_texts. rewrite Hraw, bind_Ok.
    destruct (str_entries raw) as [|t ts] eqn:Hts; [reflexivity|].
    rewrite Hangles, bind_Ok. destruct angles as [|a0 rest].
    - unfold accepted. rewrite kept_indices_all; [reflexivity|].
      intros i _. apply keeps_nil.
    - rewrite filter_loop_accepted; [reflexivity|].
      intros i a [_ Hi]. now apply Hhandled. }
  split; [exact Hclosed|]. split; [apply kept_indices_length|].
  rewrite Hclosed. unfold accepted. split.
  - intros Hall. rewrite kept_indices_all; [reflexivity|].
    intros i [_ Hi]. now apply Hall.
  - intros Hnone. rewrite kept_indices_none; [reflexivity|].
    intros i [_ Hi]. now apply Hnone.
Qed.

Lemma extract_rec_texts_closed_form_witness :
  _extract_rec_texts no_angle_result = Ok ["a"; "b"] /\
  _extract_rec_texts short_angle_result = Ok ["a"; "c"; "d"].
Proof.
  split.
  - apply (proj1 (proj2 (proj2 (extract_rec_texts_closed_form no_angle_result
                                  [VStr "a"; VStr "b"] [] eq_refl eq_refl
                                  ltac:(intros i a _ Ha; discriminate Ha))))).
    intros i _. reflexivity.
  - apply (proj1 (extract_rec_texts_closed_form short_angle_result
                    [VStr "a"; VStr "b"; VStr "c"; VStr "d"]
                    [VFloat float_zero; VStr "1.0"; VNone] eq_refl eq_refl
                    ltac:(intros [|[|[|i]]] a _ Ha; simpl in Ha;
                          [injection Ha as <-; reflexivity ..| discriminate Ha]))).
Defined.

(** X12: an angle at an index at or beyond the number of texts is never
    converted: two results with the same string texts whose angle lists
    agree below that number are treated alike, even when an angle further
    on is one whose [float()] would raise. *)
Theorem extract_rec_texts_ignores_extra_angles
    (p p' : pyobject) (raw raw' angles angles' : list value) :
  _extract_list_field p "rec_texts" = Ok raw ->
  _extract_list_field p' "rec_texts" = Ok raw' ->
  str_entries raw = str_entries raw' ->
  _extract_list_field p "textline_orientation_angles" = Ok angles ->
  _extract_list_field p' "textline_orientation_angles" = Ok angles' ->
  take (length (str_entries raw)) angles
  = take (length (str_entries raw)) angles' ->
  _extract_rec_texts p = _extract_rec_texts p'.
Proof.
  intros Hraw Hraw' Htexts Hangles Hangles' Htake.
  unfold _extract_rec_texts.
  rewrite Hraw, Hraw', !bind_Ok, <- Htexts.
  destruct (str_entries raw) as [|t ts] eqn:Hts; [reflexivity|].
  rewrite Hangles, Hangles', !bind_Ok.
  destruct angles as [|a0 rest], angles' as [|b0 rest']; try discriminate;
    [reflexivity|].
  apply filter_loop_agree. intros i [_ Hi].
  rewrite <- (lookup_take_lt (a0 :: rest) (length (t :: ts)) i) by exact Hi.
  rewrite <- (lookup_take_lt (b0 :: rest') (length (t :: ts)) i) by exact Hi.
  now rewrite Htake.
Qed.

Lemma extract_rec_texts_ignores_extra_angles_witness :
  _extract_rec_texts one_text_result
  = _extract_rec_texts one_text_extra_angle_result.
Proof.
  apply (extract_rec_texts_ignores_extra_angles
           one_text_result one_text_extra_angle_result
           [VStr "a"] [VStr "a"; VNone]
           [VInt 0] [VInt 0; VInt (10 ^ 400)]); reflexivity.
Defined.
